(** * Soccer-DB: the synchronisation engine, embedded and verified

    The development follows the Python sources:
    - [src/clean/fbref_clean.py]: modules [FbrefCleanCore] and [FbrefClean]
    - [src/clean/fbref_clean_match_stats.py]: module [FbrefCleanMatchStats]
    - [src/clean/fbref_clean_player_matches.py]: module [KeyDeriver]
    - [src/upload/upload.py]: module [UploadSoccerDB]
    - [src/main.py]: module [Workflow]
    - [src/utils/helpers.py]: [load_data], [load_db_dict], [write_db_dict]
      in module [Runtime]

    Tables are pandas frames ([Pandas], [PandasIndex]); effects (files,
    the index file, the SQLite database, the console, the log) are state
    passing over [World] with exceptions ([Runtime.M]).

    Part I holds the embedding, Part II the properties. *)

From Stdlib Require Import ZArith String Ascii List Lia Bool.
From stdpp Require Import base option list strings gmap.

Open Scope string_scope.

(* ===================================================================== *)
(** * Part I. The embedding                                               *)
(* ===================================================================== *)

(** ** Python values, exceptions and results *)

Module Py.

(** The exceptions the modelled code can raise.  Each of them is an
    instance of Python's [Exception], so that [except Exception] and a
    bare [except:] catch every one of them; [KeyboardInterrupt] and
    [SystemExit], which derive from [BaseException] only and pass
    through [except Exception], are not among them: a run of the model
    is a run that nothing interrupts from outside. *)
Inductive Exn :=
| KeyError (key : string)
| IndexError
| TypeError
| ValueError
| AttributeError
| UnboundLocalError (var : string)
| FileNotFoundError (path : string)
| EOFError
| NotImplementedError
| MergeError
| DatabaseError                      (* sqlite3.Error and its subclasses *)
| PandasDatabaseError                (* pandas.errors.DatabaseError, an OSError *)
| Exception (msg : string).

(** A computation either returns or raises. *)
Inductive Result (A : Type) :=
| Ok (a : A)
| Raise (e : Exn).
Arguments Ok {A} a.
Arguments Raise {A} e.

#[global] Instance result_ret : MRet Result := fun A a => Ok a.
#[global] Instance result_bind : MBind Result := fun A B f m =>
  match m with
  | Ok a => f a
  | Raise e => Raise e
  end.

(** A scalar held by a cell of a table. *)
Inductive Value :=
| VStr (s : string)
| VInt (z : Z).

#[global] Instance Value_eq_dec : EqDecision Value.
Proof. solve_decision. Defined.

End Py.
Export Py.

(** ** The part of pandas the engine uses *)

Module Pandas.

(** A row binds column labels to scalars; an unbound label is NaN, so a
    cell is an [option Value] with [None] for NaN. *)
Abbreviation Row := (gmap string Value).
Abbreviation Cell := (option Value).

(** A frame is its column labels (in order) and its rows (in order); the
    position of a row is its label after [reset_index(drop=True)]. *)
Record DataFrame := mkDF {
  columns : list string;
  rows : list Row
}.

#[global] Instance DataFrame_eq_dec : EqDecision DataFrame.
Proof. solve_decision. Defined.

(** The cells of a row that belong to the given column labels. *)
Definition restrict (cols : list string) (r : Row) : Row :=
  filter (fun kv => kv.1 ∈ cols) r.

(** [df[c]]: the column as a list of cells; KeyError when absent. *)
Definition getcol (df : DataFrame) (c : string) : Result (list Cell) :=
  if decide (c ∈ columns df) then Ok (map (fun r : Row => r !! c) (rows df))
  else Raise (KeyError c).

(** [s.isin(values)], one cell at a time, when [values] come from a
    frame of pandas too: NaN is in a list that holds NaN. *)
Definition isin (x : Cell) (values : list Cell) : bool :=
  bool_decide (x ∈ values).

(** [s.isin(values)] when [values] were read from the database: the
    missing value of a column of [read_sql_query] is [None], which the
    NaN of a frame read from a CSV file does not equal, so a missing
    cell is never found among them. *)
Definition isin_read_sql (x : Cell) (values : list Cell) : bool :=
  match x with
  | Some _ => bool_decide (x ∈ values)
  | None => false
  end.

(** Rows whose cell under [c] is not NaN. *)
Definition notna_rows (c : string) (rs : list Row) : list Row :=
  filter (fun r : Row => is_Some (r !! c)) rs.

(** [df.dropna(subset=[c])]. *)
Definition dropna (c : string) (df : DataFrame) : Result DataFrame :=
  if decide (c ∈ columns df)
  then Ok (mkDF (columns df) (notna_rows c (rows df)))
  else Raise (KeyError c).

(** First occurrence of every value under [c] (keep='first'): a row stays
    and the later rows that repeat its value go. *)
Fixpoint first_rows (c : string) (rs : list Row) : list Row :=
  match rs with
  | [] => []
  | r :: rs' =>
      r :: filter (fun r' : Row => r' !! c ≠ r !! c) (first_rows c rs')
  end.

(** [df.drop_duplicates(subset=[c])]. *)
Definition drop_duplicates (c : string) (df : DataFrame) : Result DataFrame :=
  if decide (c ∈ columns df)
  then Ok (mkDF (columns df) (first_rows c (rows df)))
  else Raise (KeyError c).

(** Column labels of an outer concatenation: those of the first frame,
    then the new ones of the second, in order. *)
Definition union_columns (c1 c2 : list string) : list string :=
  c1 ++ filter (fun c => c ∉ c1) c2.

(** [pd.concat([a, b], axis=0)]: rows of [a], then rows of [b], over the
    union of the columns.  A [None] entry is dropped silently.  Cells are
    kept as they are: the frames of the model have no dtype, so the cast
    of an int64 column to float64, which pandas does when the other frame
    has no value there, is not followed (it merges integers past 2^53). *)
Definition concat (a : DataFrame) (b : option DataFrame) : DataFrame :=
  match b with
  | None => mkDF (columns a) (map (restrict (columns a)) (rows a))
  | Some b =>
      mkDF (union_columns (columns a) (columns b))
           (map (restrict (columns a)) (rows a)
            ++ map (restrict (columns b)) (rows b))
  end.

(** [df[mask]] with the mask computed row by row. *)
Definition filter_rows (keep : Row -> bool) (df : DataFrame) : DataFrame :=
  mkDF (columns df) (filter (fun r => keep r = true) (rows df)).

End Pandas.
Export Pandas.

(** ** src/clean/fbref_clean.py: the upsert *)

Module FbrefCleanCore.

(** The value of [new_table] in [FbrefClean.update_table]: the production
    table ([self.db_table]) and the new rows, merged under the primary
    key.  [new_cleaned_data] is [None] when a subclass' [clean_data]
    caught its own error and returned nothing. *)
Definition update_table_new_table (primary_key : string)
    (db_table : DataFrame) (new_cleaned_data : option DataFrame)
    (replace_vals : bool) : Result DataFrame :=
  table ← (if replace_vals then
             own ← getcol db_table primary_key;
             match new_cleaned_data with
             | None => Raise TypeError
             | Some new =>
                 incoming ← getcol new primary_key;
                 Ok (filter_rows
                       (fun r => negb (isin (r !! primary_key) incoming))
                       db_table)
             end
           else Ok db_table);
  kept ← dropna primary_key (concat table new_cleaned_data);
  drop_duplicates primary_key kept.

End FbrefCleanCore.
Export FbrefCleanCore.

(** ** The process state: files, configuration, database, console, log *)

Module Runtime.

Inductive Level := INFO | ERROR.

(** Messages of [logger.info] and [logger.error], one constructor per
    f-string of the sources. *)
Inductive LogMsg :=
| StartingStep (name : string)            (* "Starting step: {name}" *)
| CompletedStep (name : string)           (* "Completed step: {name}" *)
| ErrorInStep (name : string) (e : Exn)   (* "Error in step: {name} - {e}" *)
| UpdatingEntity (name : string) (update_id : string)
                                (* "Updating ... for update id: {update_id}" *)
| CouldNotCleanSaveUpdate (e : Exn)
      (* "Could not clean, save and update league seasons due to error: {e}" *)
| CouldNotBackUp (name : string) (e : Exn)
| CouldNotUpdateDbDict (e : Exn)
      (* "Could not update db_dict file due to error: {e}" *)
| CouldNotLoadQuery (name : option string) (e : Exn)
      (* "Could not load query for table {self.name} due to error: {e}" *)
| LoadTableError (table : string) (e : Exn)
      (* "Error occurred while loading data from table '{table}': {e}" *)
| UploadError (e : Exn).                  (* "An error occurred: {e}" *)

(** One entry of the Bookkeeping Index ([config/db_dict.json]). *)
Record IndexEntry := mkEntry {
  update : string;
  ids : list Cell
}.

(** One statistic's entry of [config/column_map.json]. *)
Record StatMap := mkStatMap {
  stat_all_cols : list string;
  rename_cols : list (string * string);
  review_cols : option (list string)
}.

Inductive ColumnMapEntry :=
| OfStat (m : StatMap)
| OfCols (cols : list string).

(** The JSON object of one entity, keys in file order. *)
Definition ColumnMap := list (string * ColumnMapEntry).

Record World := mkWorld {
  csv_files : gmap string DataFrame;        (* CSV files, by path *)
  db_dict_json : gmap string IndexEntry;    (* config/db_dict.json *)
  create_table_queries_json : gmap string (list string);
  primary_key_config_json : gmap string string;
  column_map_json : gmap string ColumnMap;
  database : gmap string DataFrame;         (* tables of data/soccerdb.db *)
  stdin : list string;                      (* what the operator will type *)
  log : list (Level * LogMsg)
}.

Definition set_csv_files (f : gmap string DataFrame) (w : World) : World :=
  mkWorld f (db_dict_json w) (create_table_queries_json w)
          (primary_key_config_json w) (column_map_json w) (database w)
          (stdin w) (log w).
Definition set_db_dict (d : gmap string IndexEntry) (w : World) : World :=
  mkWorld (csv_files w) d (create_table_queries_json w)
          (primary_key_config_json w) (column_map_json w) (database w)
          (stdin w) (log w).
Definition set_database (d : gmap string DataFrame) (w : World) : World :=
  mkWorld (csv_files w) (db_dict_json w) (create_table_queries_json w)
          (primary_key_config_json w) (column_map_json w) d
          (stdin w) (log w).
Definition set_stdin (i : list string) (w : World) : World :=
  mkWorld (csv_files w) (db_dict_json w) (create_table_queries_json w)
          (primary_key_config_json w) (column_map_json w) (database w)
          i (log w).
Definition add_log (l : Level) (m : LogMsg) (w : World) : World :=
  mkWorld (csv_files w) (db_dict_json w) (create_table_queries_json w)
          (primary_key_config_json w) (column_map_json w) (database w)
          (stdin w) (log w ++ [(l, m)]).

(** Effectful code: state passing over the world, with exceptions. *)
Definition M (A : Type) : Type := World -> Result A * World.

#[global] Instance M_ret : MRet M := fun A a w => (Ok a, w).
#[global] Instance M_bind : MBind M := fun A B f m w =>
  match m w with
  | (Ok a, w') => f a w'
  | (Raise e, w') => (Raise e, w')
  end.

Definition raise {A} (e : Exn) : M A := fun w => (Raise e, w).
Definition lift {A} (r : Result A) : M A := fun w => (r, w).
Definition gets {A} (f : World -> A) : M A := fun w => (Ok (f w), w).
Definition modify (f : World -> World) : M unit := fun w => (Ok tt, f w).

(** [try: body / except Exception as e: handler e]: every exception of
    the model is an [Exception]. *)
Definition try_except {A} (body : M A) (handler : Exn -> M A) : M A :=
  fun w =>
    match body w with
    | (Ok a, w') => (Ok a, w')
    | (Raise e, w') => handler e w'
    end.

Definition logger_info (m : LogMsg) : M unit := modify (add_log INFO m).
Definition logger_error (m : LogMsg) : M unit := modify (add_log ERROR m).

(** [for x in xs: body x]. *)
Fixpoint for_each {A} (xs : list A) (body : A -> M unit) : M unit :=
  match xs with
  | [] => mret tt
  | x :: xs' => body x ≫= fun _ => for_each xs' body
  end.

(** [str.lower()] on ASCII letters. *)
Definition lower_ascii (c : ascii) : ascii :=
  let n := nat_of_ascii c in
  if (65 <=? n)%nat && (n <=? 90)%nat then ascii_of_nat (n + 32) else c.
Fixpoint lower (s : string) : string :=
  match s with
  | EmptyString => EmptyString
  | String c s' => String (lower_ascii c) (lower s')
  end.

(** [input(prompt)]: the next line the operator types. *)
Definition input : M string := fun w =>
  match stdin w with
  | [] => (Raise EOFError, w)
  | l :: rest => (Ok l, set_stdin rest w)
  end.

(** [pd.read_csv(path, index_col=0)].  A file is held as the frame
    that pandas reads from it. *)
Definition read_csv (path : string) : M DataFrame := fun w =>
  match csv_files w !! path with
  | Some df => (Ok df, w)
  | None => (Raise (FileNotFoundError path), w)
  end.

(** [df.to_csv(path)].  The file holds the frame as written: the
    frames of the model are frames whose cells read back as they are
    (pandas reads a column of digit-only strings back as numbers; such a
    column is a column of numbers in the model from the start). *)
Definition to_csv (path : string) (df : DataFrame) : M unit :=
  modify (fun w => set_csv_files (<[path := df]> (csv_files w)) w).

(** An f-string field: [None] prints as "None". *)
Definition fmt (o : option string) : string := default "None" o.

(** utils/helpers.py *)
Definition load_db_dict : M (gmap string IndexEntry) := gets db_dict_json.
Definition write_db_dict (d : gmap string IndexEntry) : M unit :=
  modify (set_db_dict d).

Fixpoint read_tables (names : list string) (acc : gmap string DataFrame)
    : M (gmap string DataFrame) :=
  match names with
  | [] => mret acc
  | n :: names' =>
      read_csv ("data/db_tables/" ++ n ++ ".csv") ≫= fun df =>
      read_tables names' (<[n := df]> acc)
  end.

Definition load_data : M (gmap string DataFrame) :=
  read_tables ["seasons"; "leagues"; "ls"; "teams"; "tls"; "players";
               "ptls"; "matches"; "team_matches"; "player_matches";
               "keeper_matches"] ∅.

End Runtime.
Export Runtime.

(** ** More of pandas: labelled index, column selection, left join *)

Module PandasIndex.

(** A frame after [set_index(k)]: the cells under [k] label the rows and
    [k] is no longer a column. *)
Record IndexedFrame := mkIF {
  index_name : string;
  icolumns : list string;
  irows : list (Cell * Row)
}.

(** [df.set_index(k)]. *)
Definition set_index (k : string) (df : DataFrame) : Result IndexedFrame :=
  if decide (k ∈ columns df)
  then Ok (mkIF k (filter (fun c => c ≠ k) (columns df))
                (map (fun r : Row => (r !! k, delete k r)) (rows df)))
  else Raise (KeyError k).

(** [df.reset_index()]: the index comes back as the first column. *)
Definition reset_index (f : IndexedFrame) : DataFrame :=
  mkDF (index_name f :: icolumns f)
       (map (fun kr : Cell * Row =>
               match kr.1 with
               | Some v => <[index_name f := v]> (kr.2)
               | None => delete (index_name f) (kr.2)
               end) (irows f)).

(** [df.drop(columns=[c])]. *)
Definition drop_column (c : string) (f : IndexedFrame) : Result IndexedFrame :=
  if decide (c ∈ icolumns f)
  then Ok (mkIF (index_name f) (filter (fun c' => c' ≠ c) (icolumns f))
                (map (fun kr : Cell * Row => (kr.1, delete c (kr.2))) (irows f)))
  else Raise (KeyError c).

(** [df.loc[label, c]] on a frame whose labels are distinct. *)
Definition loc (f : IndexedFrame) (label : Cell) (c : string) : Cell :=
  match filter (fun kr : Cell * Row => kr.1 = label) (irows f) with
  | kr :: _ => kr.2 !! c
  | [] => None
  end.

(** Writes a cell into a row; writing NaN clears it. *)
Definition set_cell (c : string) (x : Cell) (r : Row) : Row :=
  match x with
  | Some v => <[c := v]> r
  | None => delete c r
  end.

(** Whether [s] ends with [suffix]. *)
Fixpoint ends_with (suffix s : string) : bool :=
  if decide (s = suffix) then true
  else match s with
       | EmptyString => false
       | String _ s' => ends_with suffix s'
       end.

(** A row rebuilt over the labels [cols], each renamed by [f]. *)
Definition relabel (f : string -> string) (cols : list string) (r : Row) : Row :=
  list_to_map (omap (fun c => (fun v => (f c, v)) <$> r !! c) cols).

(** The repeats that a suffix caused among the labels of one side of a
    join: a renamed label that an earlier one of the side already gave,
    under an own label that no earlier one had.  pandas refuses a join
    that has one. *)
Fixpoint suffix_dups (f : string -> string) (seen cols : list string)
    : list string :=
  match cols with
  | [] => []
  | c :: cols' =>
      (if decide (f c ∈ map f seen ∧ c ∉ seen) then [f c] else [])
      ++ suffix_dups f (seen ++ [c]) cols'
  end.

(** The result of a join: the labels that come from the left frame,
    those that come from the right one, and for each row its left cells
    and its right cells.  One label can be on both sides (a left "a_y"
    beside a right "a" that the suffix renamed to "a_y"): pandas keeps
    both columns under it. *)
Record Joined := mkJoined {
  left_labels : list string;
  right_labels : list string;
  jrows : list (Row * Row)
}.

(** [left.merge(right, how='left', on=k)] with the default suffixes: a
    label other than [k] that both frames have gets "_x" on the left and
    "_y" on the right.  Every left row stays, in order, once per matching
    right row, or once with NaN on the right when none matches.  The
    join raises when a suffix repeats a label within one side. *)
Definition merge_left (k : string) (left right : DataFrame) : Result Joined :=
  if decide (k ∈ columns left ∧ k ∈ columns right) then
    let shared c := bool_decide (c ≠ k ∧ c ∈ columns left ∧ c ∈ columns right) in
    let lname c := if shared c then c ++ "_x" else c in
    let rname c := if shared c then c ++ "_y" else c in
    let rcols := filter (fun c => c ≠ k) (columns right) in
    match (suffix_dups lname [] (columns left) ++ suffix_dups rname [] rcols)%list with
    | [] =>
        Ok (mkJoined (map lname (columns left)) (map rname rcols)
              (flat_map
                 (fun l : Row =>
                    let l' := relabel lname (columns left) l in
                    match filter (fun r : Row => r !! k = l !! k) (rows right) with
                    | [] => [(l', (∅ : Row))]
                    | ms => map (fun r : Row => (l', relabel rname rcols r)) ms
                    end)
                 (rows left)))
    | _ :: _ => Raise MergeError
    end
  else Raise (KeyError k).

(** A frame whose labels may repeat: the cells of a row by position. *)
Record Table := mkTable {
  tlabels : list string;
  trows : list (list Cell)
}.

Inductive Side := OnLeft | OnRight.

(** The columns of a join that bear the labels [cols]: for each label in
    turn, the column of the left side and then the column of the right
    side that have it. *)
Definition columns_under (cols : list string) (j : Joined) : list (string * Side) :=
  flat_map (fun c =>
              (if decide (c ∈ left_labels j) then [(c, OnLeft)] else [])
              ++ (if decide (c ∈ right_labels j) then [(c, OnRight)] else []))%list
           cols.

Definition cell_at (lr : Row * Row) (col : string * Side) : Cell :=
  match col.2 with
  | OnLeft => lr.1 !! col.1
  | OnRight => lr.2 !! col.1
  end.

(** [df[cols]] on the result of a join: KeyError at the first label
    that no column bears; a label that is on both sides selects both
    columns. *)
Definition select_joined (cols : list string) (j : Joined) : Result Table :=
  match filter (fun c => c ∉ (left_labels j ++ right_labels j)%list) cols with
  | [] =>
      Ok (mkTable (map fst (columns_under cols j))
                  (map (fun lr => map (cell_at lr) (columns_under cols j)) (jrows j)))
  | c :: _ => Raise (KeyError c)
  end.

End PandasIndex.
Export PandasIndex.

(** ** src/clean/fbref_clean.py: the cleaner object *)

Module FbrefClean.

(** The attributes of a cleaner; [stats] and [column_map] are those of
    the match-statistics subclasses. *)
Record Cleaner := mkCleaner {
  name : option string;
  data_dict : gmap string DataFrame;
  db_table : DataFrame;
  primary_key : option string;
  stats : list string;
  column_map : ColumnMap
}.

Definition valid_entity_names : list string :=
  ["seasons"; "leagues"; "ls"; "teams"; "tls"; "players"; "ptls";
   "matches"; "team_matches"; "player_matches"; "keeper_matches"].

(** [FbrefClean.__init__]. *)
Definition init (name : string) : M Cleaner :=
  data_dict ← load_data;
  let name' := if decide (name ∈ valid_entity_names) then Some name else None in
  match name' ≫= fun n => data_dict !! n with
  | Some t => mret (mkCleaner name' data_dict t None [] [])
  | None => raise (KeyError (fmt name'))
  end.

Definition with_primary_key (k : string) (self : Cleaner) : Cleaner :=
  mkCleaner (name self) (data_dict self) (db_table self) (Some k)
            (stats self) (column_map self).

Definition with_stats (s : list string) (self : Cleaner) : Cleaner :=
  mkCleaner (name self) (data_dict self) (db_table self) (primary_key self)
            s (column_map self).

Definition with_column_map (m : ColumnMap) (self : Cleaner) : Cleaner :=
  mkCleaner (name self) (data_dict self) (db_table self) (primary_key self)
            (stats self) m.

(** A label the frames do not have when [self.primary_key] is [None]. *)
Definition the_primary_key (self : Cleaner) : Result string :=
  match primary_key self with
  | Some k => Ok k
  | None => Raise (KeyError "None")
  end.

(** [save_data]: a frame goes to a CSV file; anything else is refused. *)
Definition save_data (data : option DataFrame) (file_path : string) : M bool :=
  match data with
  | Some df => _ ← to_csv file_path df; mret true
  | None => mret false
  end.

(** [backup_table]. *)
Definition backup_table (self : Cleaner) (update_id : option string) : M unit :=
  let file_path := "data/fbref/" ++ fmt (name self) ++ "/" ++ fmt (name self)
                   ++ "_backup_" ++ fmt update_id ++ ".csv" in
  existing ← gets (fun w => csv_files w !! file_path);
  proceed ← (match existing with
             | Some _ => user_input ← input; mret (bool_decide (lower user_input = "yes"))
             | None => mret true
             end);
  if proceed : bool then
    try_except (_ ← save_data (Some (db_table self)) file_path; mret tt)
               (fun e => logger_error (CouldNotBackUp (fmt (name self)) e))
  else mret tt.

(** [update_table]: the merged table is saved to production and returned;
    [self.db_table] is not reassigned. *)
Definition update_table (self : Cleaner) (new_cleaned_data : option DataFrame)
    (replace_vals : bool) : M DataFrame :=
  k ← lift (the_primary_key self);
  new_table ← lift (update_table_new_table k (db_table self)
                                           new_cleaned_data replace_vals);
  _ ← save_data (Some new_table) ("data/db_tables/" ++ fmt (name self) ++ ".csv");
  mret new_table.

(** [update_db_dict]: the index entry gets the date and the primary keys
    of the table it is handed. *)
Definition update_db_dict (self : Cleaner) (new_table : DataFrame)
    (last_date : string) : M unit :=
  try_except
    (db_dict ← load_db_dict;
     entry ← lift (match db_dict !! fmt (name self) with
                   | Some e => Ok e
                   | None => Raise (KeyError (fmt (name self)))
                   end);
     k ← lift (the_primary_key self);
     keys ← lift (getcol new_table k);
     write_db_dict (<[fmt (name self) := mkEntry last_date keys]> db_dict))
    (fun e => logger_error (CouldNotUpdateDbDict e)).

Section CheckData.

(** [x in list(series)], Python's membership test on the cells of a
    column. *)
Variable py_in : Cell -> list Cell -> bool.

(** [unmatched_data]: per table and foreign key, the ids unmatched with
    the production table and with the latest update. *)
Definition Unmatched : Type := gmap string (gmap string (list Cell * list Cell)).

(** [[x for x in list(data[key]) if x not in list(other[key])]]: the
    column of [other] is read once per cell of [data[key]], so not at
    all when that column is empty. *)
Definition not_in_column (xs : list Cell) (other : DataFrame) (key : string)
    : Result (list Cell) :=
  match xs with
  | [] => Ok []
  | _ :: _ =>
      ys ← getcol other key;
      Ok (filter (fun x => py_in x ys = false) xs)
  end.

(** The loop of [check_data_vs_other_table].  Its two [print] calls
    write to the terminal, which the world does not hold. *)
Fixpoint check_tables (self : Cleaner) (update_id : string) (data : DataFrame)
    (foreign_keys : list string) (i : nat) (other_tables : list string)
    (unmatched_data : Unmatched) : M Unmatched :=
  match other_tables with
  | [] => mret unmatched_data
  | table :: rest =>
      df_table ← lift (match data_dict self !! table with
                       | Some t => Ok t
                       | None => Raise (KeyError table)
                       end);
      df_updated ← read_csv ("data/fbref/" ++ table ++ "/" ++ table ++ "_"
                             ++ update_id ++ ".csv");
      key ← lift (match foreign_keys !! i with
                  | Some key => Ok key
                  | None => Raise IndexError
                  end);
      xs ← lift (getcol data key);
      unmatched1 ← lift (not_in_column xs df_table key);
      xs ← lift (getcol data key);
      unmatched2 ← lift (not_in_column xs df_updated key);
      check_tables self update_id data foreign_keys (S i) rest
        (<[table := <[key := (unmatched1, unmatched2)]>
                      (default ∅ (unmatched_data !! table))]> unmatched_data)
  end.

(** [check_data_vs_other_table].  Its last statement before [return]
    is [self.save_data(file_path)], a call of
    [save_data(self, data, file_path)] with one argument short, which
    is a TypeError. *)
Definition check_data_vs_other_table (self : Cleaner) (update_id : string)
    (other_tables foreign_keys : list string) : M Unmatched :=
  data ← read_csv ("data/fbref/" ++ fmt (name self) ++ "_" ++ update_id ++ ".csv");
  unmatched_data ← check_tables self update_id data foreign_keys 0 other_tables ∅;
  _ ← (raise TypeError : M bool);
  mret unmatched_data.

End CheckData.

Section CleanSaveUpdate.

(** [clean_data] is the hook every subclass overrides; it returns
    [None] when the subclass caught its own error. *)
Variable clean_data : Cleaner -> option string -> M (option DataFrame).

(** [clean_save_update_data]: everything happens inside one
    [try ... except Exception], whose handler logs and returns nothing. *)
Definition clean_save_update_data (self : Cleaner) (last_date : string)
    (update_id : option string) (skip_clean : bool) : M (option DataFrame) :=
  try_except
    (cleaned ← (if skip_clean then mret None
                else
                  d ← clean_data self update_id;
                  _ ← save_data d ("data/fbref/" ++ fmt (name self) ++ "/"
                                   ++ fmt (name self) ++ "_" ++ fmt update_id
                                   ++ ".csv");
                  mret (Some d));
     user_input ← input;
     if bool_decide (lower user_input ≠ "yes")
     then raise (Exception "Data cleaning cancelled by user")
     else
       _ ← backup_table self update_id;
       user_input ← input;
       if bool_decide (lower user_input ≠ "yes")
       then raise (Exception "Data cleaning cancelled by user")
       else
         d ← (match cleaned with
              | Some d => mret d
              | None => raise (UnboundLocalError "clean_data")
              end);
         new_table ← update_table self d false;
         _ ← update_db_dict self new_table last_date;
         mret (Some new_table))
    (fun e => _ ← logger_error (CouldNotCleanSaveUpdate e); mret None).

End CleanSaveUpdate.

End FbrefClean.

(** ** src/clean/fbref_clean_player_matches.py: composite keys *)

Module KeyDeriver.

(** [left + "_" + right] on two string cells of a row, as in
    [summary_df['pid'] + "_" + summary_df['match_id']]: NaN on either
    side gives NaN. *)
Definition derive_key (left right : option string) : option string :=
  match left, right with
  | Some a, Some b => Some (a ++ "_" ++ b)
  | _, _ => None
  end.

(** The three keys of [clean_primary_stat_df] and the one of
    [clean_non_primary_stat_df]. *)
Definition tls_id (tid ls_id : option string) := derive_key tid ls_id.
Definition player_match (pid match_id : option string) := derive_key pid match_id.
Definition team_match (tid match_id : option string) := derive_key tid match_id.

(** Whether [sep] occurs in [s]. *)
Fixpoint has_char (sep : ascii) (s : string) : bool :=
  match s with
  | EmptyString => false
  | String c s' => if decide (c = sep) then true else has_char sep s'
  end.

End KeyDeriver.

(** ** src/clean/fbref_clean_match_stats.py: the reconciliation *)

Module FbrefCleanMatchStats.
Import FbrefClean.

(** [self.column_map[stat]['review_cols']]. *)
Definition review_cols_of (m : ColumnMap) (stat : string) : Result (list string) :=
  match (list_to_map m : gmap string ColumnMapEntry) !! stat with
  | Some (OfStat sm) =>
      match review_cols sm with
      | Some cols => Ok cols
      | None => Raise (KeyError "review_cols")
      end
  | Some (OfCols _) => Raise TypeError
  | None => Raise (KeyError stat)
  end.

(** [self.column_map['all_cols']]. *)
Definition all_cols_of (m : ColumnMap) : Result (list string) :=
  match (list_to_map m : gmap string ColumnMapEntry) !! "all_cols" with
  | Some (OfCols cols) => Ok cols
  | Some (OfStat _) => Raise TypeError
  | None => Raise (KeyError "all_cols")
  end.

(** One turn of the loop over the review columns.  The primary frame is
    read under [col]; the rows that are NaN there and whose label the
    secondary frame has are filled from it; the column then leaves the
    secondary frame. *)
Definition fill_step (col : string) (st : IndexedFrame * IndexedFrame)
    : Result (IndexedFrame * IndexedFrame) :=
  let '(primary_stat_df, df_concat) := st in
  if decide (col ∈ icolumns primary_stat_df) then
    let is_idx (kr : Cell * Row) : bool :=
      bool_decide (kr.2 !! col = None)
      && bool_decide (kr.1 ∈ map fst (irows df_concat)) in
    let idx := filter (fun kr => is_idx kr = true) (irows primary_stat_df) in
    filled ← (if decide (0 < length idx)%nat then
                if decide (col ∈ icolumns df_concat) then
                  Ok (mkIF (index_name primary_stat_df) (icolumns primary_stat_df)
                        (map (fun kr : Cell * Row =>
                                if is_idx kr
                                then (kr.1, set_cell col (loc df_concat (kr.1) col) (kr.2))
                                else kr)
                             (irows primary_stat_df)))
                else Raise (KeyError col)
              else Ok primary_stat_df);
    rest ← drop_column col df_concat;
    Ok (filled, rest)
  else Raise (KeyError col).

(** The loop inside [try: ... except: pass]: it stops at the first turn
    that raises and keeps what the earlier turns did. *)
Fixpoint fill_review_cols (cols : list string) (st : IndexedFrame * IndexedFrame)
    : IndexedFrame * IndexedFrame :=
  match cols with
  | [] => st
  | col :: cols' =>
      match fill_step col st with
      | Ok st' => fill_review_cols cols' st'
      | Raise _ => st
      end
  end.

Definition temp_path (self : Cleaner) (stat : string) (update_id : option string)
    : string :=
  "data/fbref/" ++ fmt (name self) ++ "/temp/" ++ stat ++ "_df_clean_"
  ++ fmt update_id ++ ".csv".

(** The loop that reads one cleaned frame per statistic. *)
Fixpoint load_dfs (self : Cleaner) (update_id : option string)
    (stats : list string) (dfs : gmap string DataFrame)
    : M (gmap string DataFrame) :=
  match stats with
  | [] => mret dfs
  | stat :: stats' =>
      df ← read_csv (temp_path self stat update_id);
      load_dfs self update_id stats' (<[stat := df]> dfs)
  end.

Section Reconcile.

(** [left.merge(right, how='outer', on=k)] of pandas, which joins the
    secondary frames into one frame. *)
Variable merge_outer : string -> DataFrame -> DataFrame -> Result DataFrame.

(** The frame that [pd.read_csv] returns for the file that [to_csv]
    writes for a table (pandas renames the repeated labels as it reads
    them). *)
Variable read_back : Table -> DataFrame.

(** The loop over [self.stats[1:]]: the first frame starts
    [df_concat], the others are outer-joined to it. *)
Fixpoint combine (k : string) (dfs : gmap string DataFrame)
    (i : nat) (rest : list string) (df_concat : option DataFrame)
    : Result (option DataFrame) :=
  match rest with
  | [] => Ok df_concat
  | stat :: rest' =>
      df ← (match dfs !! stat with
            | Some df => Ok df
            | None => Raise (KeyError stat)
            end);
      match i, df_concat with
      | O, _ => combine k dfs 1 rest' (Some df)
      | S _, Some acc =>
          joined ← merge_outer k acc df;
          combine k dfs (S i) rest' (Some joined)
      | S _, None => Raise (UnboundLocalError "df_concat")
      end
  end.

(** The value of [new_match_stats_clean] in
    [concat_clean_save_all_match_stats], from the frames read. *)
Definition new_match_stats_clean (self : Cleaner) (k primary_stat : string)
    (dfs : gmap string DataFrame) : Result Table :=
  joined ← combine k dfs 0 (tail (stats self)) None;
  df_concat ← (match joined with
               | Some df => Ok df
               | None => Raise (UnboundLocalError "df_concat")
               end);
  df_concat ← dropna k df_concat;
  df_concat ← drop_duplicates k df_concat;
  df_concat ← set_index k df_concat;
  primary_raw ← (match dfs !! primary_stat with
                 | Some df => Ok df
                 | None => Raise (KeyError primary_stat)
                 end);
  primary_stat_df ← dropna k primary_raw;
  primary_stat_df ← drop_duplicates k primary_stat_df;
  primary_stat_df ← set_index k primary_stat_df;
  let filled :=
    match review_cols_of (column_map self) primary_stat with
    | Ok cols => fill_review_cols cols (primary_stat_df, df_concat)
    | Raise _ => (primary_stat_df, df_concat)
    end in
  merged ← merge_left k (reset_index (filled.1)) (reset_index (filled.2));
  all_cols ← all_cols_of (column_map self);
  select_joined all_cols merged.

(** [concat_clean_save_all_match_stats]. *)
Definition concat_clean_save_all_match_stats (self : Cleaner)
    (update_id : option string) : M Table :=
  primary_stat ← lift (match stats self with
                       | s :: _ => Ok s
                       | [] => Raise IndexError
                       end);
  dfs ← load_dfs self update_id (stats self) ∅;
  k ← lift (the_primary_key self);
  out ← lift (new_match_stats_clean self k primary_stat dfs);
  _ ← to_csv ("data/fbref/" ++ fmt (name self) ++ "/" ++ fmt (name self)
              ++ "_" ++ fmt update_id ++ ".csv") (read_back out);
  mret out.

End Reconcile.

End FbrefCleanMatchStats.

(** ** Python strings: iteration, [in], and the one regular expression *)

Module PyStr.

(** [for ch in s]: the one-character strings of [s], in order. *)
Fixpoint chars (s : string) : list string :=
  match s with
  | EmptyString => []
  | String c s' => String c EmptyString :: chars s'
  end.

(** [needle in hay]. *)
Fixpoint contains (needle hay : string) : bool :=
  if String.prefix needle hay then true
  else match hay with
       | EmptyString => false
       | String _ hay' => contains needle hay'
       end.

(** [\s]. *)
Definition is_space (c : ascii) : bool :=
  let n := nat_of_ascii c in
  (n =? 32)%nat || ((9 <=? n)%nat && (n <=? 13)%nat).

Definition is_newline (c : ascii) : bool := (nat_of_ascii c =? 10)%nat.

Fixpoint strip_prefix (p s : string) : option string :=
  match p, s with
  | EmptyString, _ => Some s
  | String a p', String b s' => if decide (a = b) then strip_prefix p' s' else None
  | String _ _, EmptyString => None
  end.

Definition strip_space (s : string) : option string :=
  match s with
  | String c s' => if is_space c then Some s' else None
  | EmptyString => None
  end.

(** What follows the group: [\)\sREFERENCES]. *)
Definition closing (s : string) : option string :=
  s ← strip_prefix ")" s; s ← strip_space s; strip_prefix "REFERENCES" s.

(** The longest run of characters other than newline after which
    [closing] matches, with what is left after the match. *)
Fixpoint group (s : string) : option (string * string) :=
  match s with
  | EmptyString => None
  | String c s' =>
      let here := (fun rest => (EmptyString, rest)) <$> closing s in
      if is_newline c then here
      else match group s' with
           | Some (g, rest) => Some (String c g, rest)
           | None => here
           end
  end.

(** [FOREIGN\sKEY\s\((.+)\)\sREFERENCES] matched at the start of [s]. *)
Definition match_here (s : string) : option (string * string) :=
  s ← strip_prefix "FOREIGN" s; s ← strip_space s;
  s ← strip_prefix "KEY" s; s ← strip_space s;
  s ← strip_prefix "(" s;
  gr ← group s;
  if decide (gr.1 = EmptyString) then None else Some gr.

Fixpoint findall_from (fuel : nat) (s : string) : list string :=
  match fuel with
  | O => []
  | S fuel' =>
      match match_here s with
      | Some (g, rest) => g :: findall_from fuel' rest
      | None =>
          match s with
          | EmptyString => []
          | String _ s' => findall_from fuel' s'
          end
      end
  end.

(** [re.findall(r"FOREIGN\sKEY\s\((.+)\)\sREFERENCES", s)]. *)
Definition findall_foreign_key (s : string) : list string :=
  findall_from (S (String.length s)) s.

Fixpoint lstrip (s : string) : string :=
  match s with
  | String c s' => if is_space c then lstrip s' else s
  | EmptyString => EmptyString
  end.

Fixpoint rstrip (s : string) : string :=
  match s with
  | EmptyString => EmptyString
  | String c s' =>
      match rstrip s' with
      | EmptyString => if is_space c then EmptyString else String c EmptyString
      | t => String c t
      end
  end.

(** [s.split(" ")[0]]. *)
Fixpoint before_space (s : string) : string :=
  match s with
  | EmptyString => EmptyString
  | String c s' => if decide (c = " "%char) then EmptyString else String c (before_space s')
  end.

(** [query_line.strip().split(" ")[0]]. *)
Definition first_word (s : string) : string := before_space (rstrip (lstrip s)).

End PyStr.

(** ** src/upload/upload.py *)

Module UploadSoccerDB.
Import PyStr.

Record Uploader := mkUploader {
  name : option string;
  create_table_query : option string;
  primary_key : string
}.

Definition valid_entity_names : list string :=
  ["seasons"; "leagues"; "ls"; "teams"; "tls"; "players"; "ptls"; "matches";
   "team_matches"; "player_matches"; "keeper_matches"; "player_values";
   "team_values"].

(** [__init__]: [set_name], [set_create_table_query] (which joins the
    lines of the query into one string, or logs and keeps [None]), and
    [set_primary_key]. *)
Definition init (name : string) : M Uploader :=
  let name' := if decide (name ∈ valid_entity_names) then Some name else None in
  queries ← gets create_table_queries_json;
  query ← (match name' ≫= fun n => queries !! n with
           | Some lines => mret (Some (String.concat "" lines))
           | None =>
               _ ← logger_error (CouldNotLoadQuery name' (KeyError (fmt name')));
               mret None
           end);
  name_to_primary ← gets primary_key_config_json;
  match name' ≫= fun n => name_to_primary !! n with
  | Some k => mret (mkUploader name' query k)
  | None => raise (KeyError (fmt name'))
  end.

(** [pd.read_sql_query("SELECT * FROM {table}", con)]: pandas wraps the
    error of sqlite for a table that does not exist in its own
    [pandas.errors.DatabaseError]. *)
Definition read_sql_query (table : string) : M DataFrame := fun w =>
  match database w !! table with
  | Some t => (Ok t, w)
  | None => (Raise PandasDatabaseError, w)
  end.

(** [load_table]: the table.  [except sqlite3.Error] catches the errors
    of sqlite only, logs them and lets the method return [None]; the
    error of pandas for a missing table is none of them and goes
    through. *)
Definition load_table (table : string) : M (option DataFrame) := fun w =>
  match read_sql_query table w with
  | (Ok data, w') => (Ok (Some data), w')
  | (Raise DatabaseError, w') =>
      (_ ← logger_error (LoadTableError table DatabaseError); mret None) w'
  | (Raise e, w') => (Raise e, w')
  end.

(** [get_foreign_keys_from_query]: the loop runs over
    [self.create_table_query], which is a string. *)
Fixpoint foreign_keys_of (query_lines : list string) : Result (list string) :=
  match query_lines with
  | [] => Ok []
  | query_line :: rest =>
      if contains "FOREIGN KEY" query_line then
        match findall_foreign_key query_line with
        | key :: _ => keys ← foreign_keys_of rest; Ok (key :: keys)
        | [] => Raise IndexError
        end
      else foreign_keys_of rest
  end.

Definition get_foreign_keys_from_query (self : Uploader) : Result (list string) :=
  match create_table_query self with
  | Some query => foreign_keys_of (chars query)
  | None => Raise TypeError
  end.

(** [get_int_columns_from_query], over the same string. *)
Definition get_int_columns_from_query (self : Uploader) : Result (list string) :=
  match create_table_query self with
  | Some query =>
      Ok (map first_word (filter (fun l => contains "INT" l = true) (chars query)))
  | None => Raise TypeError
  end.

(** [check_foreign_key_constraint]: the rows whose cell under
    [foreign_key] is among the ids the index holds under that name. *)
Definition check_foreign_key_constraint (data : DataFrame) (foreign_key : string)
    : M DataFrame :=
  db_dict ← load_db_dict;
  match db_dict !! foreign_key with
  | Some entry =>
      _ ← lift (getcol data foreign_key);
      mret (filter_rows (fun r => isin (r !! foreign_key) (ids entry)) data)
  | None => raise (KeyError foreign_key)
  end.

Fixpoint check_foreign_keys (keys : list string) (data : DataFrame) : M DataFrame :=
  match keys with
  | [] => mret data
  | key :: keys' =>
      data ← check_foreign_key_constraint data key;
      check_foreign_keys keys' data
  end.

Section Upload.

(** [pd.to_numeric(x, errors='coerce')] then [astype('Int64')], per cell. *)
Variable to_int64 : Cell -> Cell.

(** [chunk.to_sql(name, con, if_exists='append', index=False)]: what
    the Relational Store does with a chunk, or the error it raises. *)
Variable to_sql : string -> DataFrame -> gmap string DataFrame ->
                  Result (gmap string DataFrame).

(** [convert_to_int]. *)
Fixpoint convert_to_int (data : DataFrame) (int_cols : list string)
    : Result DataFrame :=
  match int_cols with
  | [] => Ok data
  | col :: cols' =>
      _ ← getcol data col;
      convert_to_int
        (mkDF (columns data)
              (map (fun r : Row => set_cell col (to_int64 (r !! col)) r) (rows data)))
        cols'
  end.

(** [check_table_constraints]. *)
Definition check_table_constraints (self : Uploader) (data : DataFrame)
    : M DataFrame :=
  db_table ← load_table (fmt (name self));
  db_table ← (match db_table with
              | Some t => mret t
              | None => raise AttributeError
              end);
  data ← (if decide (length (rows db_table) ≠ 0%nat) then
            _ids ← lift (getcol db_table (primary_key self));
            _ ← lift (getcol data (primary_key self));
            mret (filter_rows
                    (fun r => negb (isin_read_sql (r !! primary_key self) _ids))
                    data)
          else mret data);
  foreign_keys ← lift (get_foreign_keys_from_query self);
  data ← check_foreign_keys foreign_keys data;
  int_keys ← lift (get_int_columns_from_query self);
  lift (convert_to_int data int_keys).

Definition chunk_size : nat := 50 * 100.

(** [data.iloc[start:end]] for [start] in [range(0, len(data), 5000)]. *)
Fixpoint chunks (fuel : nat) (rs : list Row) : list (list Row) :=
  match fuel, rs with
  | O, _ | _, [] => []
  | S fuel', _ => take chunk_size rs :: chunks fuel' (drop chunk_size rs)
  end.

(** [upload_to_db]: chunk after chunk is appended; an exception ends
    the loop and is logged by the handler. *)
Definition upload_to_db (self : Uploader) (data : DataFrame) : M unit :=
  try_except
    (for_each (chunks (length (rows data)) (rows data))
       (fun chunk w =>
          match to_sql (fmt (name self)) (mkDF (columns data) chunk) (database w) with
          | Ok db => (Ok tt, set_database db w)
          | Raise e => (Raise e, w)
          end))
    (fun e => logger_error (UploadError e)).

(** [update_db_dict]: the index entry gets the primary keys of the
    frame it is handed. *)
Definition update_db_dict (self : Uploader) (clean_data : DataFrame) : M unit :=
  try_except
    (db_dict ← load_db_dict;
     _ids ← lift (getcol clean_data (primary_key self));
     match db_dict !! fmt (name self) with
     | Some entry =>
         write_db_dict (<[fmt (name self) := mkEntry (update entry) _ids]> db_dict)
     | None => raise (KeyError (fmt (name self)))
     end)
    (fun e => logger_error (CouldNotUpdateDbDict e)).

(** [upload_clean_data]. *)
Definition upload_clean_data (self : Uploader) (update_id : option string)
    : M unit :=
  data ← read_csv (match update_id with
                   | Some u => "data/fbref/" ++ fmt (name self) ++ "/"
                               ++ fmt (name self) ++ "_" ++ u ++ ".csv"
                   | None => "data/db_tables/" ++ fmt (name self) ++ ".csv"
                   end);
  clean_data ← check_table_constraints self data;
  _ ← upload_to_db self clean_data;
  update_db_dict self clean_data.

End Upload.

End UploadSoccerDB.

(** ** src/main.py: the orchestrator *)

Module Workflow.

(** A positional or keyword argument of a step function. *)
Inductive Arg :=
| AStr (s : string)
| ABool (b : bool).

(** A step function, called as [func( *args, **kwargs)]. *)
Definition Func := list Arg -> gmap string Arg -> M unit.

Definition Step : Type := string * Func * list Arg.

Record Controller := mkController {
  update_id : string;
  ls_reference : string;
  last_date : string;
  old_match_reference_date : string;
  new_match_reference_date : string;
  is_new_ls : bool
}.

(** A function of two positional string parameters: every parameter is
    bound by position, so any keyword argument is a TypeError. *)
Definition def2 (body : string -> string -> M unit) : Func :=
  fun args kwargs =>
    match args with
    | [AStr a; AStr b] =>
        if decide (kwargs = ∅) then body a b else raise TypeError
    | _ => raise TypeError
    end.

(** [FbrefCleanSeasons()]. *)
Definition FbrefCleanSeasons : M FbrefClean.Cleaner :=
  self ← FbrefClean.init "seasons";
  mret (FbrefClean.with_primary_key "season" self).

(** [FbrefCleanKeeperMatches()], through [FbrefCleanMatchStats.__init__]. *)
Definition FbrefCleanKeeperMatches : M FbrefClean.Cleaner :=
  self ← FbrefClean.init "keeper_matches";
  maps ← gets column_map_json;
  match maps !! "keeper_matches" with
  | Some m =>
      let self := FbrefClean.with_column_map m self in
      let self := FbrefClean.with_stats (removelast (map fst m)) self in
      let self := FbrefClean.with_primary_key "keeper_match" self in
      mret (FbrefClean.with_stats ["summary"; "keeper"] self)
  | None => raise (KeyError "keeper_matches")
  end.

Section Steps.

(** The [clean_data] of the subclasses, and the two library calls of
    the uploader. *)
Variable clean_data : FbrefClean.Cleaner -> option string -> M (option DataFrame).
Variable to_int64 : Cell -> Cell.
Variable to_sql : string -> DataFrame -> gmap string DataFrame ->
                  Result (gmap string DataFrame).

(** The step functions that drive a scraper. *)
Variables update_ls update_tls update_teams update_ptls update_players
          update_matches update_team_matches update_player_matches : Func.

(** [update_seasons(update_id, last_date)]. *)
Definition update_seasons : Func :=
  def2 (fun update_id last_date =>
    _ ← logger_info (UpdatingEntity "seasons" update_id);
    seasons_cleaner ← FbrefCleanSeasons;
    seasons_uploader ← UploadSoccerDB.init "seasons";
    _ ← FbrefClean.clean_save_update_data clean_data seasons_cleaner
          last_date (Some update_id) false;
    UploadSoccerDB.upload_clean_data to_int64 to_sql seasons_uploader
          (Some update_id)).

(** [update_keeper_matches(update_id, new_match_reference_date)]. *)
Definition update_keeper_matches : Func :=
  def2 (fun update_id new_match_reference_date =>
    _ ← logger_info (UpdatingEntity "keeper-matches" update_id);
    keeper_matches_cleaner ← FbrefCleanKeeperMatches;
    keeper_matches_uploader ← UploadSoccerDB.init "keeper_matches";
    _ ← FbrefClean.clean_save_update_data clean_data keeper_matches_cleaner
          new_match_reference_date (Some update_id) false;
    UploadSoccerDB.upload_clean_data to_int64 to_sql keeper_matches_uploader
          (Some update_id)).

(** [self.steps]. *)
Definition steps (self : Controller) : list Step :=
  [ ("seasons", update_seasons, [AStr (update_id self); AStr (last_date self)]);
    ("ls", update_ls,
       [AStr (update_id self); AStr (ls_reference self); AStr (last_date self)]);
    ("tls", update_tls, [AStr (update_id self); AStr (last_date self)]);
    ("teams", update_teams, [AStr (update_id self); AStr (last_date self)]);
    ("ptls", update_ptls, [AStr (update_id self); AStr (last_date self)]);
    ("players", update_players, [AStr (update_id self); AStr (last_date self)]);
    ("matches", update_matches,
       [AStr (update_id self); AStr (old_match_reference_date self);
        AStr (new_match_reference_date self); ABool (is_new_ls self)]);
    ("team_matches", update_team_matches,
       [AStr (update_id self); AStr (old_match_reference_date self);
        AStr (new_match_reference_date self); ABool (is_new_ls self)]);
    ("player_matches", update_player_matches,
       [AStr (update_id self); AStr (old_match_reference_date self);
        AStr (new_match_reference_date self)]);
    ("keeper_matches", update_keeper_matches,
       [AStr (update_id self); AStr (new_match_reference_date self)]) ].

(** [next((index for index, (name, _, _) in enumerate(steps)
           if name == start_from), 0)]. *)
Fixpoint index_of (start_from : string) (l : list Step) (index : nat)
    : option nat :=
  match l with
  | [] => None
  | (name, _, _) :: l' =>
      if decide (name = start_from) then Some index
      else index_of start_from l' (S index)
  end.

Definition start_index (l : list Step) (start_from : option string) : nat :=
  match start_from with
  | Some s =>
      if decide (s = "") then 0%nat else default 0%nat (index_of s l 0)
  | None => 0%nat
  end.

(** The body of the loop of [run_workflow]. *)
Definition run_step (additional_args : gmap string (gmap string Arg))
    (step : Step) : M unit :=
  let '(name, func, args) := step in
  _ ← logger_info (StartingStep name);
  try_except
    (_ ← func args (default ∅ (additional_args !! name));
     logger_info (CompletedStep name))
    (fun e => logger_error (ErrorInStep name e)).

(** [run_workflow(start_from=None, additional_args={})]. *)
Definition run_workflow (self : Controller) (start_from : option string)
    (additional_args : gmap string (gmap string Arg)) : M unit :=
  for_each (drop (start_index (steps self) start_from) (steps self))
           (run_step additional_args).

End Steps.

(** The entity order as the design document words it (seasons, leagues,
    league-seasons, ...), to be compared with [steps]. *)
Definition fixed_dependency_order : list string :=
  ["seasons"; "leagues"; "ls"; "tls"; "teams"; "ptls"; "players"; "matches";
   "team_matches"; "player_matches"; "keeper_matches"].

(** What the log says about the steps: the names started, and the names
    reported completed. *)
Definition started (l : list (Level * LogMsg)) : list string :=
  omap (fun e : Level * LogMsg =>
          match e.2 with StartingStep n => Some n | _ => None end) l.

Definition completed (l : list (Level * LogMsg)) : list string :=
  omap (fun e : Level * LogMsg =>
          match e.2 with CompletedStep n => Some n | _ => None end) l.

End Workflow.

(** ** Sample data: one keeper-matches batch over a small production state *)

Module Sample.
Import Workflow.

Definition nl : string := String (ascii_of_nat 10) EmptyString.

Definition keeper_row (key player_match : string) (saves : Z) : Row :=
  <["keeper_match" := VStr key]>
    (<["player_match" := VStr player_match]> (<["saves" := VInt saves]> ∅)).

Definition keeper_columns : list string := ["keeper_match"; "player_match"; "saves"].

(** Production holds key A; the batch brings key B, whose player-match
    is not among the known ids. *)
Definition production : DataFrame :=
  mkDF keeper_columns [keeper_row "A" "p1_m1" 3].
Definition batch : DataFrame :=
  mkDF keeper_columns [keeper_row "B" "p9_m9" 5].

Definition empty_table : DataFrame := mkDF [] [].

Definition keeper_query : list string :=
  ["CREATE TABLE keeper_matches (" ++ nl;
   "keeper_match TEXT PRIMARY KEY," ++ nl;
   "player_match TEXT," ++ nl;
   "saves INT," ++ nl;
   "FOREIGN KEY (player_match) REFERENCES player_matches(player_match)" ++ nl;
   ");"].

Definition keeper_column_map : ColumnMap :=
  [("summary", OfStat (mkStatMap keeper_columns [] None));
   ("keeper", OfStat (mkStatMap keeper_columns [] None));
   ("all_cols", OfCols keeper_columns)].

Definition world (answers : list string) : World :=
  mkWorld
    (list_to_map
       [("data/db_tables/seasons.csv", empty_table);
        ("data/db_tables/leagues.csv", empty_table);
        ("data/db_tables/ls.csv", empty_table);
        ("data/db_tables/teams.csv", empty_table);
        ("data/db_tables/tls.csv", empty_table);
        ("data/db_tables/players.csv", empty_table);
        ("data/db_tables/ptls.csv", empty_table);
        ("data/db_tables/matches.csv", empty_table);
        ("data/db_tables/team_matches.csv", empty_table);
        ("data/db_tables/player_matches.csv", empty_table);
        ("data/db_tables/keeper_matches.csv", production)])
    (list_to_map
       [("keeper_matches", mkEntry "2024-04-30" [Some (VStr "A")]);
        ("player_matches", mkEntry "2024-04-30" [Some (VStr "p1_m1")]);
        ("player_match", mkEntry "2024-04-30" [Some (VStr "p1_m1")])])
    (list_to_map [("keeper_matches", keeper_query)])
    (list_to_map [("keeper_matches", "keeper_match")])
    (list_to_map [("keeper_matches", keeper_column_map)])
    (list_to_map [("keeper_matches", production)])
    answers
    [].

(** A [clean_data] that returns the batch. *)
Definition clean_batch : FbrefClean.Cleaner -> option string -> M (option DataFrame) :=
  fun _ _ => mret (Some batch).

(** A store that appends every chunk, and one that refuses every chunk. *)
Definition store_appends : string -> DataFrame -> gmap string DataFrame ->
                           Result (gmap string DataFrame) :=
  fun name chunk db =>
    match db !! name with
    | Some t => Ok (<[name := mkDF (columns t) (rows t ++ rows chunk)]> db)
    | None => Ok (<[name := chunk]> db)
    end.
Definition store_refuses : string -> DataFrame -> gmap string DataFrame ->
                           Result (gmap string DataFrame) :=
  fun _ _ _ => Raise DatabaseError.

Definition keep_cell : Cell -> Cell := fun x => x.

(** A scraper-driven step that does nothing. *)
Definition idle : Func := fun _ _ => mret tt.

Definition controller : Controller :=
  mkController "2024_07_01_run1" "2024-03-01" "2024-07-01"
               "2024-04-30" "2024-07-01" false.

(** The workflow over the sample functions. *)
Definition run (to_sql : string -> DataFrame -> gmap string DataFrame ->
                         Result (gmap string DataFrame))
    (start_from : option string) : M unit :=
  run_workflow clean_batch keep_cell to_sql idle idle idle idle idle idle idle idle
               controller start_from ∅.

(** The production row and the new row of the conflict example. *)
Definition row_X (v : Z) : Row := <["pk" := VStr "X"]> (<["v" := VInt v]> ∅).
Definition production_X : DataFrame := mkDF ["pk"; "v"] [row_X 1].
Definition new_X : DataFrame := mkDF ["pk"; "v"] [row_X 2].

(** The state the keeper-matches cleaner leaves when the operator
    answers yes twice: the batch file is written, production holds A and
    B, and so does the index. *)
Definition after_clean : World :=
  ((FbrefCleanKeeperMatches ≫= fun cleaner =>
    FbrefClean.clean_save_update_data clean_batch cleaner "2024-07-01"
      (Some "2024_07_01_run1") false)
     (world ["yes"; "yes"])).2.

(** Two cleaned player-match frames that share the labels "a" and
    "a_x", and a column map whose review list names a column ("ghost")
    that no frame has. *)
Definition stat_row (key : string) (a a_x : Z) : Row :=
  <["player_match" := VStr key]> (<["a" := VInt a]> (<["a_x" := VInt a_x]> ∅)).
Definition stat_columns : list string := ["player_match"; "a"; "a_x"].
Definition summary_clean : DataFrame := mkDF stat_columns [stat_row "p1_m1" 1 2].
Definition passing_clean : DataFrame := mkDF stat_columns [stat_row "p1_m1" 5 7].

Definition player_matches_cleaner (review : list string) (out_cols : list string)
    : FbrefClean.Cleaner :=
  FbrefClean.mkCleaner (Some "player_matches") ∅ empty_table (Some "player_match")
    ["summary"; "passing"]
    [("summary", OfStat (mkStatMap stat_columns [] (Some review)));
     ("passing", OfStat (mkStatMap stat_columns [] None));
     ("all_cols", OfCols out_cols)].

Definition temp_world : World :=
  mkWorld
    (list_to_map
       [("data/fbref/player_matches/temp/summary_df_clean_2024_07_01_run1.csv",
         summary_clean);
        ("data/fbref/player_matches/temp/passing_df_clean_2024_07_01_run1.csv",
         passing_clean)])
    ∅ ∅ ∅ ∅ ∅ [] [].

(** An outer join that is never reached with two statistics. *)
Definition no_outer : string -> DataFrame -> DataFrame -> Result DataFrame :=
  fun _ _ _ => Raise NotImplementedError.

(** A table read back, for tables whose labels are distinct: label by
    label, the cells that are not NaN. *)
Definition read_back : Table -> DataFrame :=
  fun t =>
    mkDF (tlabels t)
         (map (fun cells : list Cell =>
                 list_to_map (omap (fun cx : string * Cell =>
                                      (fun v => (cx.1, v)) <$> cx.2)
                                   (zip (tlabels t) cells)))
              (trows t)).

Definition keeper_uploader : UploadSoccerDB.Uploader :=
  UploadSoccerDB.mkUploader (Some "keeper_matches")
    (Some (String.concat "" keeper_query)) "keeper_match".

End Sample.

(* ===================================================================== *)
(** * Part II. Properties                                                 *)
(* ===================================================================== *)

(** ** Composite keys *)

Module KeyDeriverFacts.
Import KeyDeriver.

Lemma append_same_length_inj (a b s t : string) :
  String.length a = String.length b -> a ++ s = b ++ t -> a = b.
Proof.
  revert b. induction a as [|c a IH]; intros [|d b] Hlen Heq; simpl in *;
    try discriminate; [reflexivity|].
  injection Heq as -> Heq. f_equal. apply IH; [lia | exact Heq].
Qed.

Lemma append_sep_inj (sep : ascii) (a b s t : string) :
  has_char sep a = false -> has_char sep b = false ->
  a ++ String sep s = b ++ String sep t -> a = b.
Proof.
  revert b. induction a as [|c a IH]; intros [|d b] Ha Hb Heq; simpl in *.
  - reflexivity.
  - injection Heq as <- _. destruct (decide (sep = sep)); [discriminate | congruence].
  - injection Heq as -> _. destruct (decide (sep = sep)); [discriminate | congruence].
  - injection Heq as -> Heq.
    destruct (decide (d = sep)); [discriminate|].
    f_equal. apply IH; assumption.
Qed.

(** C8, as stated, fails: with a = "x" and b = "x_x" the two orders give
    the same key "x_x_x" although a and b differ. *)
Lemma derive_key_order_collision :
  "x" ≠ "x_x" /\ derive_key (Some "x") (Some "x_x") = derive_key (Some "x_x") (Some "x").
Proof. split; [discriminate | reflexivity]. Qed.

(** C8, amended: the key of two non-null identifiers is their
    concatenation around "_" (so equal inputs give equal keys), and two
    different identifiers give different keys in the two orders when
    they have the same length or when neither contains "_". *)
Theorem derive_key_order_sensitive (a b : string) :
  a ≠ b ->
  String.length a = String.length b
  \/ (has_char "_" a = false /\ has_char "_" b = false) ->
  derive_key (Some a) (Some b) = Some (a ++ "_" ++ b)
  /\ derive_key (Some a) (Some b) ≠ derive_key (Some b) (Some a).
Proof.
  intros Hne Hcond. split; [reflexivity|].
  unfold derive_key. intros Heq. injection Heq as Heq. apply Hne.
  destruct Hcond as [Hlen | [Ha Hb]].
  - exact (append_same_length_inj _ _ _ _ Hlen Heq).
  - exact (append_sep_inj "_" _ _ _ _ Ha Hb Heq).
Qed.

Lemma derive_key_order_sensitive_witness :
  derive_key (Some "p1a2b3c4") (Some "m9z8y7x6") = Some "p1a2b3c4_m9z8y7x6"
  /\ derive_key (Some "p1a2b3c4") (Some "m9z8y7x6")
     ≠ derive_key (Some "m9z8y7x6") (Some "p1a2b3c4").
Proof.
  apply (derive_key_order_sensitive "p1a2b3c4" "m9z8y7x6").
  - discriminate.
  - left. reflexivity.
Defined.

End KeyDeriverFacts.

(** ** The upsert *)

Module UpsertFacts.
#[local] Open Scope list_scope.

(** The merge as the design document words it for [replace_existing =
    false]: new rows first, then the existing ones. *)
Definition upsert_new_then_existing (primary_key : string)
    (existing new : DataFrame) : Result DataFrame :=
  kept ← dropna primary_key (concat new (Some existing));
  drop_duplicates primary_key kept.

Lemma filter_none_gen (A : Type) (P : A -> Prop) `{!forall x, Decision (P x)}
    (l : list A) :
  (forall r, r ∈ l -> ~ P r) -> filter P l = [].
Proof.
  induction l as [|x l IH]; intros Hall; [reflexivity|].
  rewrite filter_cons_False by (apply Hall; left).
  apply IH. intros r Hr. apply Hall. by right.
Qed.

Section Rows.
Variable c : string.

Lemma first_rows_filter (P : Cell -> Prop) `{!forall x, Decision (P x)}
    (l : list Row) :
  first_rows c (filter (fun r : Row => P (r !! c)) l)
  = filter (fun r : Row => P (r !! c)) (first_rows c l).
Proof.
  induction l as [|x l IH]; [reflexivity|].
  simpl first_rows. destruct (decide (P (x !! c))) as [HP|HP].
  - rewrite !filter_cons_True by assumption. simpl first_rows.
    rewrite IH. f_equal. rewrite !list_filter_filter.
    apply list_filter_iff. tauto.
  - rewrite !filter_cons_False by assumption. rewrite IH.
    rewrite list_filter_filter. apply list_filter_iff.
    intros r. split; [|tauto]. intros HPr. split; [assumption|].
    intros Heq. rewrite Heq in HPr. contradiction.
Qed.

Lemma first_rows_idemp (l : list Row) :
  first_rows c (first_rows c l) = first_rows c l.
Proof.
  induction l as [|x l IH]; [reflexivity|].
  simpl first_rows. f_equal.
  pose proof (first_rows_filter (fun k => k ≠ x !! c) (first_rows c l)) as H.
  cbv beta in H. rewrite H, IH.
  apply list_filter_filter_l. tauto.
Qed.

Lemma first_rows_subset (l : list Row) (r : Row) :
  r ∈ first_rows c l -> r ∈ l.
Proof.
  induction l as [|x l IH]; simpl; [trivial|].
  rewrite !elem_of_cons, list_elem_of_filter. tauto.
Qed.

Definition keys (l : list Row) : list Cell := map (fun r : Row => r !! c) l.

Lemma elem_of_keys (l : list Row) (k : Cell) :
  k ∈ keys l <-> exists r, r ∈ l /\ r !! c = k.
Proof.
  unfold keys. rewrite list_elem_of_In, in_map_iff.
  setoid_rewrite list_elem_of_In. firstorder.
Qed.

(** Every key of a list survives in its first occurrences. *)
Lemma first_rows_keys (l : list Row) (k : Cell) :
  k ∈ keys (first_rows c l) <-> k ∈ keys l.
Proof.
  rewrite !elem_of_keys. split.
  - intros (r & Hr & Hk). exists r. eauto using first_rows_subset.
  - induction l as [|x l IH]; intros (r & Hr & Hk).
    + inversion Hr.
    + simpl. destruct (decide (k = x !! c)) as [->|Hne].
      * exists x. split; [left | reflexivity].
      * apply elem_of_cons in Hr as [->|Hr]; [congruence|].
        destruct IH as (r' & Hr' & Hk'); [eauto|].
        exists r'. split; [|assumption].
        right. apply list_elem_of_filter. split; [congruence | assumption].
Qed.

Lemma filter_all (P : Row -> Prop) `{!forall x, Decision (P x)} (l : list Row) :
  (forall r, r ∈ l -> P r) -> filter P l = l.
Proof.
  induction l as [|x l IH]; intros Hall; [reflexivity|].
  rewrite filter_cons_True by (apply Hall; left).
  f_equal. apply IH. intros r Hr. apply Hall. by right.
Qed.

Lemma filter_none (P : Row -> Prop) `{!forall x, Decision (P x)} (l : list Row) :
  (forall r, r ∈ l -> ~ P r) -> filter P l = [].
Proof. apply filter_none_gen. Qed.

Lemma first_rows_app (xs ys : list Row) :
  first_rows c (xs ++ ys)
  = first_rows c xs
    ++ filter (fun r : Row => r !! c ∉ keys xs) (first_rows c ys).
Proof.
  induction xs as [|x xs IH]; simpl.
  - symmetry. apply filter_all. intros r _ H. inversion H.
  - f_equal. rewrite IH, filter_app. f_equal.
    rewrite list_filter_filter. apply list_filter_iff. intros r.
    rewrite not_elem_of_cons. tauto.
Qed.

Lemma notna_rows_app (xs ys : list Row) :
  notna_rows c (xs ++ ys) = notna_rows c xs ++ notna_rows c ys.
Proof. apply filter_app. Qed.

Lemma notna_first_rows (l : list Row) :
  notna_rows c (first_rows c (notna_rows c l)) = first_rows c (notna_rows c l).
Proof.
  unfold notna_rows.
  pose proof (first_rows_filter is_Some l) as H. cbv beta in H.
  rewrite H. apply list_filter_filter_l. tauto.
Qed.

Lemma notna_rows_subset (l : list Row) (r : Row) :
  r ∈ notna_rows c l -> r ∈ l.
Proof. unfold notna_rows. rewrite list_elem_of_filter. tauto. Qed.

(** Rows whose keys are all taken already add nothing. *)
Lemma first_rows_absorb (xs ys : list Row) :
  (forall y, y ∈ ys -> y !! c ∈ keys xs) ->
  first_rows c (xs ++ ys) = first_rows c xs.
Proof.
  intros Hsub. rewrite first_rows_app.
  rewrite filter_none; [apply app_nil_r|].
  intros r Hr Hn. apply Hn, Hsub. eauto using first_rows_subset.
Qed.

End Rows.

Lemma restrict_lookup (cols : list string) (r : Row) (c : string) :
  c ∈ cols -> restrict cols r !! c = r !! c.
Proof.
  intros Hc. unfold restrict. rewrite map_lookup_filter.
  destruct (r !! c); simpl; [|reflexivity].
  by rewrite option_guard_True.
Qed.

Lemma restrict_restrict (cols wider : list string) (r : Row) :
  (forall c, c ∈ cols -> c ∈ wider) ->
  restrict wider (restrict cols r) = restrict cols r.
Proof.
  intros Hsub. unfold restrict. apply map_filter_filter_r.
  intros i x _ Hi. simpl in *. auto.
Qed.

Lemma elem_of_union_columns (c1 c2 : list string) (c : string) :
  c ∈ union_columns c1 c2 <-> c ∈ c1 \/ c ∈ c2.
Proof.
  unfold union_columns. rewrite elem_of_app, list_elem_of_filter.
  destruct (decide (c ∈ c1)); tauto.
Qed.

Lemma union_columns_absorb (c1 c2 : list string) :
  union_columns (union_columns c1 c2) c2 = union_columns c1 c2.
Proof.
  unfold union_columns at 1.
  rewrite (filter_none_gen string _ c2); [apply app_nil_r|].
  intros c Hc Hn. apply Hn. apply elem_of_union_columns. by right.
Qed.

Lemma map_restrict_id (cols wider : list string) (l : list Row) :
  (forall c, c ∈ cols -> c ∈ wider) ->
  map (restrict wider) (map (restrict cols) l) = map (restrict cols) l.
Proof.
  intros Hsub. rewrite map_map. apply map_ext. intros r.
  by apply restrict_restrict.
Qed.

Lemma map_id_on (f : Row -> Row) (l : list Row) :
  (forall r, r ∈ l -> f r = r) -> map f l = l.
Proof.
  induction l as [|x l IH]; intros H; simpl; [reflexivity|].
  rewrite H by left. f_equal. apply IH. intros r Hr. apply H. by right.
Qed.

(** The merged table without replacement, in closed form. *)
Lemma new_table_keep (k : string) (T : DataFrame) (N : option DataFrame) :
  update_table_new_table k T N false
  = if decide (k ∈ columns (concat T N))
    then Ok (mkDF (columns (concat T N))
                  (first_rows k (notna_rows k (rows (concat T N)))))
    else Raise (KeyError k).
Proof.
  unfold update_table_new_table. simpl. unfold dropna.
  destruct (decide (k ∈ columns (concat T N))) as [Hin|Hin]; [|reflexivity].
  simpl. unfold drop_duplicates. simpl. by rewrite decide_True.
Qed.

(** The merged table with replacement, in closed form. *)
Lemma new_table_replace (k : string) (T n : DataFrame) :
  update_table_new_table k T (Some n) true
  = if decide (k ∈ columns T) then
      if decide (k ∈ columns n) then
        let table :=
          filter_rows (fun r => negb (isin (r !! k) (keys k (rows n)))) T in
        Ok (mkDF (columns (concat table (Some n)))
                 (first_rows k (notna_rows k (rows (concat table (Some n))))))
      else Raise (KeyError k)
    else Raise (KeyError k).
Proof.
  unfold update_table_new_table, getcol.
  destruct (decide (k ∈ columns T)) as [HT|HT]; [|reflexivity].
  destruct (decide (k ∈ columns n)) as [Hn|Hn]; [|reflexivity].
  simpl. unfold dropna. simpl.
  rewrite decide_True by (apply elem_of_union_columns; by left).
  simpl. unfold drop_duplicates. simpl.
  rewrite decide_True by (apply elem_of_union_columns; by left).
  reflexivity.
Qed.

(** A merged table is a fixed point of merging the same rows again. *)
Lemma update_table_again (k : string) (T R : DataFrame) (N : option DataFrame)
    (replace_vals : bool) :
  update_table_new_table k T N replace_vals = Ok R ->
  update_table_new_table k R N replace_vals = Ok R.
Proof.
  destruct replace_vals.
  - (* replace_vals = True *)
    destruct N as [n|].
    2:{ unfold update_table_new_table. by destruct (getcol T k). }
    rewrite new_table_replace.
    destruct (decide (k ∈ columns T)) as [HT|]; [|discriminate].
    destruct (decide (k ∈ columns n)) as [Hn|]; [|discriminate].
    cbv zeta. intros [= <-]. rewrite new_table_replace. simpl.
    rewrite decide_True by (apply elem_of_union_columns; by left).
    rewrite decide_True by assumption.
    rewrite union_columns_absorb. do 2 f_equal.
    set (U := union_columns (columns T) (columns n)).
    set (T1 := filter (fun r : Row => negb (isin (r !! k) (keys k (rows n))) = true)
                      (rows T)).
    set (tN := map (restrict (columns n)) (rows n)).
    assert (HkN : forall y, y ∈ tN -> y !! k ∈ keys k (rows n)).
    { intros y Hy. apply list_elem_of_In, in_map_iff in Hy as (y0 & <- & Hy0).
      rewrite restrict_lookup by assumption.
      apply elem_of_keys. exists y0. split; [by apply list_elem_of_In | reflexivity]. }
    assert (HkT : forall x, x ∈ map (restrict (columns T)) T1 ->
                            x !! k ∉ keys k (rows n)).
    { intros x Hx. apply list_elem_of_In, in_map_iff in Hx as (x0 & <- & Hx0).
      rewrite restrict_lookup by assumption.
      apply list_elem_of_In, list_elem_of_filter in Hx0 as [Hx0 _].
      unfold isin in Hx0. apply negb_true_iff, bool_decide_eq_false in Hx0.
      exact Hx0. }
    set (A := first_rows k (notna_rows k (map (restrict (columns T)) T1))).
    set (B := filter (fun r : Row => r !! k ∉ keys k (notna_rows k (map (restrict (columns T)) T1)))
                     (first_rows k (notna_rows k tN))).
    assert (HR : first_rows k (notna_rows k (map (restrict (columns T)) T1 ++ tN))
                 = A ++ B).
    { by rewrite notna_rows_app, first_rows_app. }
    rewrite HR.
    assert (HA : forall x, x ∈ A -> x ∈ map (restrict (columns T)) T1).
    { intros x Hx. eauto using first_rows_subset, notna_rows_subset. }
    assert (HB : forall y, y ∈ B -> y ∈ tN).
    { intros y Hy. apply list_elem_of_filter in Hy as [_ Hy].
      eauto using first_rows_subset, notna_rows_subset. }
    rewrite filter_app.
    rewrite (filter_all _ A); cycle 1.
    { intros x Hx. apply negb_true_iff, bool_decide_eq_false. unfold isin. auto. }
    rewrite (filter_none _ B); cycle 1.
    { intros y Hy. rewrite negb_true_iff, not_false_iff_true.
      apply bool_decide_eq_true. auto. }
    rewrite app_nil_r.
    rewrite (map_id_on (restrict U) A); cycle 1.
    { intros x Hx. apply HA, list_elem_of_In, in_map_iff in Hx as (x0 & <- & _).
      apply restrict_restrict. intros c' Hc'. apply elem_of_union_columns. by left. }
    fold tN. rewrite notna_rows_app, first_rows_app.
    subst A. rewrite notna_first_rows, first_rows_idemp. f_equal.
    subst B. apply list_filter_iff. intros y.
    rewrite first_rows_keys. reflexivity.
  - (* replace_vals = False *)
    rewrite !new_table_keep.
    destruct (decide (k ∈ columns (concat T N))) as [Hk|]; [|discriminate].
    intros [= <-].
    assert (Hcols : columns (concat (mkDF (columns (concat T N))
                       (first_rows k (notna_rows k (rows (concat T N))))) N)
                    = columns (concat T N)).
    { destruct N as [n|]; simpl; [apply union_columns_absorb | reflexivity]. }
    rewrite Hcols. rewrite decide_True by assumption. do 2 f_equal.
    destruct N as [n|]; simpl.
    + set (U := union_columns (columns T) (columns n)).
      set (tT := map (restrict (columns T)) (rows T)).
      set (tN := map (restrict (columns n)) (rows n)).
      rewrite (map_id_on (restrict U)); cycle 1.
      { intros x Hx.
        apply first_rows_subset, notna_rows_subset, elem_of_app in Hx as [Hx|Hx];
          apply list_elem_of_In, in_map_iff in Hx as (x0 & <- & _);
          apply restrict_restrict; intros c' Hc'; apply elem_of_union_columns;
          [by left | by right]. }
      fold tN. rewrite notna_rows_app, notna_first_rows.
      rewrite first_rows_absorb; [apply first_rows_idemp|].
      intros y Hy. apply first_rows_keys.
      apply elem_of_keys. exists y. split; [|reflexivity].
      apply list_elem_of_filter in Hy as [Hsome Hy].
      apply list_elem_of_filter. split; [assumption|].
      apply elem_of_app. by right.
    + rewrite (map_id_on (restrict (columns T))); cycle 1.
      { intros x Hx.
        apply first_rows_subset, notna_rows_subset in Hx.
        apply list_elem_of_In, in_map_iff in Hx as (x0 & <- & _).
        apply restrict_restrict. auto. }
      rewrite notna_first_rows. apply first_rows_idemp.
Qed.

(** The method on one cleaner object: a second call returns what the
    first returned and leaves the files as the first left them. *)
Lemma update_table_method_again (self : FbrefClean.Cleaner)
    (N : option DataFrame) (replace_vals : bool) (w : World) :
  let once := FbrefClean.update_table self N replace_vals w in
  let twice := FbrefClean.update_table self N replace_vals (once.2) in
  twice.1 = once.1 /\ csv_files (twice.2) = csv_files (once.2).
Proof.
  cbv zeta. unfold FbrefClean.update_table, FbrefClean.save_data, to_csv, modify,
    lift, mbind, M_bind, mret, M_ret.
  destruct (FbrefClean.the_primary_key self) as [k|e]; [|done].
  destruct (update_table_new_table k (FbrefClean.db_table self) N replace_vals)
    as [R|e]; [|done].
  cbn. split; [done|]. apply insert_insert_eq.
Qed.

(** C7: merging the same new rows, with the same flag, into the table
    that the merge produced gives that table again (when the first merge
    raises there is no table to merge into and the error is the result);
    and calling [update_table] twice on one cleaner returns the same
    table twice and leaves the same files. *)
Theorem update_table_idempotent (k : string) (T : DataFrame)
    (N : option DataFrame) (replace_vals : bool) :
  (R ← update_table_new_table k T N replace_vals;
   update_table_new_table k R N replace_vals)
  = update_table_new_table k T N replace_vals
  /\ forall (self : FbrefClean.Cleaner) (w : World),
      let once := FbrefClean.update_table self N replace_vals w in
      let twice := FbrefClean.update_table self N replace_vals (once.2) in
      twice.1 = once.1 /\ csv_files (twice.2) = csv_files (once.2).
Proof.
  split; [|intros self w; apply update_table_method_again].
  destruct (update_table_new_table k T N replace_vals) as [R|e] eqn:E; simpl.
  - by apply update_table_again in E.
  - reflexivity.
Qed.

(** C4, as stated, fails at its own example: concatenating new rows
    first and keeping first occurrences gives v = 2, while the code,
    without replacement, gives v = 1. *)
Lemma update_table_is_not_new_then_existing :
  upsert_new_then_existing "pk" Sample.production_X Sample.new_X
    = Ok (mkDF ["pk"; "v"] [Sample.row_X 2])
  /\ update_table_new_table "pk" Sample.production_X (Some Sample.new_X) false
    = Ok (mkDF ["pk"; "v"] [Sample.row_X 1])
  /\ update_table_new_table "pk" Sample.production_X (Some Sample.new_X) false
     ≠ upsert_new_then_existing "pk" Sample.production_X Sample.new_X.
Proof.
  split; [vm_compute; reflexivity|]. split; [vm_compute; reflexivity|].
  intros H.
  apply (f_equal (fun res : Result DataFrame =>
                    match res with
                    | Ok df => (fun r : Row => r !! "v") <$> head (rows df)
                    | Raise _ => None
                    end)) in H.
  vm_compute in H. discriminate H.
Qed.

(** C4, amended: on production row (X, 1) and new row (X, 2) the merge
    with replacement holds v = 2 and the merge without it holds v = 1;
    without replacement the two row sets are concatenated in
    existing-then-new order, the rows with a null primary key are
    dropped, and the first occurrence of every key is kept. *)
Theorem update_table_conflict_policy :
  update_table_new_table "pk" Sample.production_X (Some Sample.new_X) true
    = Ok (mkDF ["pk"; "v"] [Sample.row_X 2])
  /\ update_table_new_table "pk" Sample.production_X (Some Sample.new_X) false
    = Ok (mkDF ["pk"; "v"] [Sample.row_X 1])
  /\ forall (k : string) (existing new : DataFrame),
      update_table_new_table k existing (Some new) false
      = if decide (k ∈ union_columns (columns existing) (columns new))
        then Ok (mkDF (union_columns (columns existing) (columns new))
                   (first_rows k
                      (notna_rows k
                         (map (restrict (columns existing)) (rows existing)
                          ++ map (restrict (columns new)) (rows new)))))
        else Raise (KeyError k).
Proof.
  split; [vm_compute; reflexivity|]. split; [vm_compute; reflexivity|].
  intros k existing new. apply new_table_keep.
Qed.

End UpsertFacts.

(** ** What a computation leaves in the log about started steps *)

Module LogFacts.
Import Workflow.
#[local] Open Scope list_scope.

(** A computation that logs no "Starting step" message. *)
Definition keeps_started {A} (m : M A) : Prop :=
  forall w, started (log (m w).2) = started (log w).

Lemma started_app (l1 l2 : list (Level * LogMsg)) :
  started (l1 ++ l2) = started l1 ++ started l2.
Proof.
  unfold started. apply omap_app.
Qed.

Lemma ks_ret {A} (a : A) : keeps_started (mret a).
Proof. intros w. reflexivity. Qed.

Lemma ks_raise {A} (e : Exn) : keeps_started (@raise A e).
Proof. intros w. reflexivity. Qed.

Lemma ks_lift {A} (r : Result A) : keeps_started (lift r).
Proof. intros w. reflexivity. Qed.

Lemma ks_gets {A} (f : World -> A) : keeps_started (gets f).
Proof. intros w. reflexivity. Qed.

Lemma ks_bind {A B} (m : M A) (k : A -> M B) :
  keeps_started m -> (forall a, keeps_started (k a)) -> keeps_started (m ≫= k).
Proof.
  intros Hm Hk w. unfold mbind, M_bind. specialize (Hm w).
  destruct (m w) as [[a|e] w']; simpl in *; [|assumption].
  by rewrite Hk.
Qed.

Lemma ks_try {A} (body : M A) (handler : Exn -> M A) :
  keeps_started body -> (forall e, keeps_started (handler e)) ->
  keeps_started (try_except body handler).
Proof.
  intros Hm Hk w. unfold try_except. specialize (Hm w).
  destruct (body w) as [[a|e] w']; simpl in *; [assumption|].
  by rewrite Hk.
Qed.

Lemma ks_input : keeps_started input.
Proof. intros w. unfold input. by destruct (stdin w). Qed.

Lemma ks_read_csv (path : string) : keeps_started (read_csv path).
Proof. intros w. unfold read_csv. by destruct (csv_files w !! path). Qed.

Lemma ks_to_csv (path : string) (df : DataFrame) : keeps_started (to_csv path df).
Proof. intros w. reflexivity. Qed.

Lemma ks_load_db_dict : keeps_started load_db_dict.
Proof. intros w. reflexivity. Qed.

Lemma ks_write_db_dict (d : gmap string IndexEntry) : keeps_started (write_db_dict d).
Proof. intros w. reflexivity. Qed.

Lemma ks_logger_error (m : LogMsg) :
  (forall n, m ≠ StartingStep n) -> keeps_started (logger_error m).
Proof.
  intros Hm w. simpl. rewrite started_app. simpl.
  destruct m; try apply app_nil_r. by destruct (Hm name).
Qed.

Lemma ks_logger_info (m : LogMsg) :
  (forall n, m ≠ StartingStep n) -> keeps_started (logger_info m).
Proof.
  intros Hm w. simpl. rewrite started_app. simpl.
  destruct m; try apply app_nil_r. by destruct (Hm name).
Qed.

Lemma ks_for_each {A} (xs : list A) (body : A -> M unit) :
  (forall x, keeps_started (body x)) -> keeps_started (for_each xs body).
Proof.
  intros Hb. induction xs as [|x xs IH]; simpl.
  - apply ks_ret.
  - apply ks_bind; [apply Hb | intros _; apply IH].
Qed.

Lemma ks_read_tables (names : list string) (acc : gmap string DataFrame) :
  keeps_started (read_tables names acc).
Proof.
  revert acc. induction names as [|n names IH]; intros acc; simpl.
  - apply ks_ret.
  - apply ks_bind; [apply ks_read_csv | intros df; apply IH].
Qed.

Create HintDb ks.
#[local] Hint Resolve ks_ret ks_raise ks_lift ks_gets ks_input ks_read_csv
  ks_to_csv ks_load_db_dict ks_write_db_dict ks_read_tables : ks.

(** Splits a computation along its binds, handlers and case analyses. *)
Ltac ks_step :=
  first
    [ solve [auto with ks]
    | apply ks_bind; [|intros ?]
    | apply ks_try; [|intros ?]
    | apply ks_logger_error; intros ?; discriminate
    | apply ks_logger_info; intros ?; discriminate
    | match goal with
      | |- keeps_started (match ?x with _ => _ end) => destruct x
      | |- keeps_started (let '(_, _) := ?x in _) => destruct x
      end ].
Ltac ks := repeat ks_step.

Lemma ks_load_data : keeps_started load_data.
Proof. apply ks_read_tables. Qed.
#[local] Hint Resolve ks_load_data : ks.

Lemma ks_clean_init (n : string) : keeps_started (FbrefClean.init n).
Proof. unfold FbrefClean.init. ks. Qed.
#[local] Hint Resolve ks_clean_init : ks.

Lemma ks_save_data (d : option DataFrame) (path : string) :
  keeps_started (FbrefClean.save_data d path).
Proof. unfold FbrefClean.save_data. ks. Qed.
#[local] Hint Resolve ks_save_data : ks.

Lemma ks_backup_table (self : FbrefClean.Cleaner) (u : option string) :
  keeps_started (FbrefClean.backup_table self u).
Proof. unfold FbrefClean.backup_table. ks. Qed.
#[local] Hint Resolve ks_backup_table : ks.

Lemma ks_update_table (self : FbrefClean.Cleaner) (d : option DataFrame) (b : bool) :
  keeps_started (FbrefClean.update_table self d b).
Proof. unfold FbrefClean.update_table. ks. Qed.
#[local] Hint Resolve ks_update_table : ks.

Lemma ks_clean_update_db_dict (self : FbrefClean.Cleaner) (t : DataFrame)
    (d : string) :
  keeps_started (FbrefClean.update_db_dict self t d).
Proof. unfold FbrefClean.update_db_dict. ks. Qed.
#[local] Hint Resolve ks_clean_update_db_dict : ks.

Lemma ks_upload_init (n : string) : keeps_started (UploadSoccerDB.init n).
Proof. unfold UploadSoccerDB.init. ks. Qed.
#[local] Hint Resolve ks_upload_init : ks.

Lemma ks_load_table (t : string) : keeps_started (UploadSoccerDB.load_table t).
Proof.
  intros w. unfold UploadSoccerDB.load_table, UploadSoccerDB.read_sql_query.
  by destruct (database w !! t).
Qed.
#[local] Hint Resolve ks_load_table : ks.

Lemma ks_check_foreign_key_constraint (data : DataFrame) (key : string) :
  keeps_started (UploadSoccerDB.check_foreign_key_constraint data key).
Proof. unfold UploadSoccerDB.check_foreign_key_constraint. ks. Qed.
#[local] Hint Resolve ks_check_foreign_key_constraint : ks.

Lemma ks_check_foreign_keys (keys : list string) (data : DataFrame) :
  keeps_started (UploadSoccerDB.check_foreign_keys keys data).
Proof.
  revert data. induction keys as [|key keys IH]; intros data; simpl; ks.
Qed.
#[local] Hint Resolve ks_check_foreign_keys : ks.

Section Steps.
Variable clean_data : FbrefClean.Cleaner -> option string -> M (option DataFrame).
Variable to_int64 : Cell -> Cell.
Variable to_sql : string -> DataFrame -> gmap string DataFrame ->
                  Result (gmap string DataFrame).
Hypothesis clean_data_quiet : forall self u, keeps_started (clean_data self u).

Lemma ks_clean_save_update_data self d u b :
  keeps_started (FbrefClean.clean_save_update_data clean_data self d u b).
Proof. unfold FbrefClean.clean_save_update_data. ks. Qed.

Lemma ks_upload_to_db self data :
  keeps_started (UploadSoccerDB.upload_to_db to_sql self data).
Proof.
  unfold UploadSoccerDB.upload_to_db. apply ks_try; [|intros e; ks].
  apply ks_for_each. intros chunk w. by destruct (to_sql _ _ _).
Qed.

Lemma ks_upload_update_db_dict self data :
  keeps_started (UploadSoccerDB.update_db_dict self data).
Proof. unfold UploadSoccerDB.update_db_dict. ks. Qed.

Lemma ks_check_table_constraints self data :
  keeps_started (UploadSoccerDB.check_table_constraints to_int64 self data).
Proof. unfold UploadSoccerDB.check_table_constraints. ks. Qed.

Lemma ks_upload_clean_data self u :
  keeps_started (UploadSoccerDB.upload_clean_data to_int64 to_sql self u).
Proof.
  unfold UploadSoccerDB.upload_clean_data.
  pose proof ks_upload_to_db. pose proof ks_upload_update_db_dict.
  pose proof ks_check_table_constraints. ks.
Qed.

Lemma ks_update_seasons args kwargs :
  keeps_started (update_seasons clean_data to_int64 to_sql args kwargs).
Proof.
  pose proof ks_clean_save_update_data. pose proof ks_upload_clean_data.
  unfold update_seasons, def2, FbrefCleanSeasons. ks.
Qed.

Lemma ks_update_keeper_matches args kwargs :
  keeps_started (update_keeper_matches clean_data to_int64 to_sql args kwargs).
Proof.
  pose proof ks_clean_save_update_data. pose proof ks_upload_clean_data.
  unfold update_keeper_matches, def2, FbrefCleanKeeperMatches. ks.
Qed.

End Steps.

End LogFacts.

(** ** The orchestrator *)

Module WorkflowFacts.
Import Workflow LogFacts.
#[local] Open Scope list_scope.

Definition step_names (l : list Step) : list string :=
  map (fun st : Step => st.1.1) l.


Section Orchestrator.
Variable clean_data : FbrefClean.Cleaner -> option string -> M (option DataFrame).
Variable to_int64 : Cell -> Cell.
Variable to_sql : string -> DataFrame -> gmap string DataFrame ->
                  Result (gmap string DataFrame).
Variables update_ls update_tls update_teams update_ptls update_players
          update_matches update_team_matches update_player_matches : Func.

#[local] Abbreviation the_steps :=
  (steps clean_data to_int64 to_sql update_ls update_tls update_teams
         update_ptls update_players update_matches update_team_matches
         update_player_matches).
#[local] Abbreviation the_workflow :=
  (run_workflow clean_data to_int64 to_sql update_ls update_tls update_teams
         update_ptls update_players update_matches update_team_matches
         update_player_matches).

(** The step functions log their own messages, never the
    orchestrator's "Starting step". *)
Hypothesis clean_data_quiet : forall self u, keeps_started (clean_data self u).
Hypothesis update_ls_quiet : forall a k, keeps_started (update_ls a k).
Hypothesis update_tls_quiet : forall a k, keeps_started (update_tls a k).
Hypothesis update_teams_quiet : forall a k, keeps_started (update_teams a k).
Hypothesis update_ptls_quiet : forall a k, keeps_started (update_ptls a k).
Hypothesis update_players_quiet : forall a k, keeps_started (update_players a k).
Hypothesis update_matches_quiet : forall a k, keeps_started (update_matches a k).
Hypothesis update_team_matches_quiet :
  forall a k, keeps_started (update_team_matches a k).
Hypothesis update_player_matches_quiet :
  forall a k, keeps_started (update_player_matches a k).

Lemma run_step_started (additional_args : gmap string (gmap string Arg))
    (name : string) (func : Func) (args : list Arg) (w : World) :
  (forall a k, keeps_started (func a k)) ->
  started (log (run_step additional_args (name, func, args) w).2)
  = started (log w) ++ [name].
Proof.
  intros Hf. unfold run_step.
  change (started (log ((try_except
             (func args (default ∅ (additional_args !! name)) ≫= fun _ =>
              logger_info (CompletedStep name))
             (fun e => logger_error (ErrorInStep name e)))
           (add_log INFO (StartingStep name) w)).2)
          = started (log w) ++ [name]).
  rewrite ks_try.
  - simpl. by rewrite started_app.
  - apply ks_bind; [apply Hf|]. intros _. apply ks_logger_info. discriminate.
  - intros e. apply ks_logger_error. discriminate.
Qed.

Lemma for_each_cons {A} (x : A) (xs : list A) (body : A -> M unit) (w : World) :
  for_each (x :: xs) body w
  = match body x w with
    | (Ok _, w') => for_each xs body w'
    | (Raise e, w') => (Raise e, w')
    end.
Proof. reflexivity. Qed.

Lemma run_step_returns (additional_args : gmap string (gmap string Arg))
    (st : Step) (w : World) :
  (run_step additional_args st w).1 = Ok tt.
Proof.
  destruct st as [[name func] args]. unfold run_step.
  unfold mbind, M_bind, logger_info, modify, try_except. simpl.
  destruct (func args _ _) as [[[]|e] w']; reflexivity.
Qed.

Lemma run_steps_started (additional_args : gmap string (gmap string Arg))
    (l : list Step) (w : World) :
  Forall (fun st : Step => forall a k, keeps_started (st.1.2 a k)) l ->
  started (log (for_each l (run_step additional_args) w).2)
  = started (log w) ++ step_names l.
Proof.
  intros Hl. revert w. induction Hl as [|[[name func] args] l Hf Hl IH]; intros w.
  - simpl. by rewrite app_nil_r.
  - rewrite for_each_cons.
    pose proof (run_step_returns additional_args (name, func, args) w) as Hr.
    pose proof (run_step_started additional_args name func args w Hf) as Hs.
    destruct (run_step additional_args (name, func, args) w) as [[[]|e] w'];
      [|discriminate].
    cbn [snd] in Hs. rewrite IH, Hs. simpl. by rewrite <- app_assoc.
Qed.

(** C9, amended: the orchestrator has one step for each of the ten
    entities seasons, league-seasons, team-league-seasons, teams,
    player-team-league-seasons, players, matches, team-match-stats,
    player-match-stats and keeper-match-stats, which is the fixed
    dependency order without the leagues entity, and a run without
    [start_from] starts them in exactly that order whatever each step
    does. *)
Theorem run_workflow_step_order (self : Controller)
    (additional_args : gmap string (gmap string Arg)) (w : World) :
  step_names (the_steps self)
    = filter (fun n => n ≠ "leagues") fixed_dependency_order
  /\ started (log (the_workflow self None additional_args w).2)
     = started (log w)
       ++ ["seasons"; "ls"; "tls"; "teams"; "ptls"; "players"; "matches";
           "team_matches"; "player_matches"; "keeper_matches"].
Proof.
  split; [reflexivity|].
  unfold run_workflow. simpl drop. rewrite run_steps_started; [reflexivity|].
  repeat constructor; simpl; auto using ks_update_seasons, ks_update_keeper_matches.
Qed.



End Orchestrator.

(** C9, as stated, fails: a whole run over the sample state starts ten
    steps, none of them for leagues, so the started steps are not the
    eleven entities of the fixed dependency order. *)
Lemma run_workflow_has_no_leagues_step :
  let w := (Sample.run Sample.store_appends None (Sample.world ["yes"; "yes"])).2 in
  "leagues" ∈ fixed_dependency_order
  /\ ("leagues" ∉ started (log w))
  /\ (started (log w) ≠ fixed_dependency_order).
Proof.
  cbv zeta. split; [|split].
  - apply (bool_decide_unpack _). vm_compute. exact I.
  - apply (bool_decide_unpack _). vm_compute. exact I.
  - apply (bool_decide_unpack _). vm_compute. exact I.
Qed.

Lemma run_workflow_step_order_witness :
  step_names (steps Sample.clean_batch Sample.keep_cell Sample.store_appends
                Sample.idle Sample.idle Sample.idle Sample.idle Sample.idle
                Sample.idle Sample.idle Sample.idle Sample.controller)
    = filter (fun n => n ≠ "leagues") fixed_dependency_order
  /\ started (log (Sample.run Sample.store_appends None
                     (Sample.world ["yes"; "yes"])).2)
     = ["seasons"; "ls"; "tls"; "teams"; "ptls"; "players"; "matches";
        "team_matches"; "player_matches"; "keeper_matches"].
Proof.
  apply (run_workflow_step_order Sample.clean_batch Sample.keep_cell
           Sample.store_appends Sample.idle Sample.idle Sample.idle Sample.idle
           Sample.idle Sample.idle Sample.idle Sample.idle);
    intros; intros ?; reflexivity.
Defined.


(** A handler that returns makes the whole [try] return. *)
Lemma try_except_returns {A} (body : M A) (handler : Exn -> M A) (w : World) :
  (forall e w0, exists a, (handler e w0).1 = Ok a) ->
  exists a, (try_except body handler w).1 = Ok a.
Proof.
  intros Hh. unfold try_except. destruct (body w) as [[a|e] w']; eauto.
Qed.

(** C5, at the failing input: [clean_save_update_data] returns normally
    whatever happens inside it.  When the operator answers "no", the
    pipeline of the cleaner raises, the cleaner logs the error itself,
    and the orchestrator logs the step as completed. *)
Theorem cancelled_step_is_logged_completed :
  let r := Sample.run Sample.store_appends (Some "keeper_matches")
                      (Sample.world ["no"]) in
  (forall clean_data self last_date update_id skip_clean w,
     exists new_table,
       (FbrefClean.clean_save_update_data clean_data self last_date update_id
          skip_clean w).1 = Ok new_table)
  /\ r.1 = Ok tt
  /\ log (r.2)
     = [(INFO, StartingStep "keeper_matches");
        (INFO, UpdatingEntity "keeper-matches" "2024_07_01_run1");
        (ERROR, CouldNotCleanSaveUpdate (Exception "Data cleaning cancelled by user"));
        (INFO, CompletedStep "keeper_matches")].
Proof.
  cbv zeta. split; [|split; vm_compute; reflexivity].
  intros clean_data self last_date update_id skip_clean w.
  apply try_except_returns. intros e w0. by exists None.
Qed.

End WorkflowFacts.

(** ** The uploader: integrity gate, commit, index *)

Module UploadFacts.
Import PyStr UploadSoccerDB.
#[local] Open Scope list_scope.

Lemma bind_run {A B} (m : M A) (k : A -> M B) (w : World) :
  (m ≫= k) w = match m w with
               | (Ok a, w') => k a w'
               | (Raise e, w') => (Raise e, w')
               end.
Proof. reflexivity. Qed.

(** No one-character string contains "FOREIGN KEY". *)
Lemma contains_foreign_key_char (ch : ascii) :
  contains "FOREIGN KEY" (String ch EmptyString) = false.
Proof.
  cbn [contains String.prefix].
  destruct (ascii_dec "F"%char ch); reflexivity.
Qed.

(** Over the characters of a string the loop finds no foreign key. *)
Lemma foreign_keys_of_chars (query : string) :
  foreign_keys_of (chars query) = Ok [].
Proof.
  induction query as [|ch query IH]; [reflexivity|].
  cbn [chars foreign_keys_of]. by rewrite contains_foreign_key_char.
Qed.


(** C2, at the failing input: over the characters of a query the loop
    finds no foreign key, whatever the query.  The create-table
    configuration of keeper_matches declares the foreign key
    player_match, and read line by line it is found; the uploader reads
    the joined query character by character and finds none, so the batch
    row whose player_match "p9_m9" is not among the known ids passes the
    constraint check. *)
Theorem check_table_constraints_keeps_unknown_reference :
  let w := Sample.after_clean in
  (forall query : string, foreign_keys_of (chars query) = Ok [])
  /\ foreign_keys_of Sample.keeper_query = Ok ["player_match"]
  /\ get_foreign_keys_from_query Sample.keeper_uploader = Ok []
  /\ (ids <$> db_dict_json w !! "player_matches" = Some [Some (VStr "p1_m1")])
  /\ (ids <$> db_dict_json w !! "player_match" = Some [Some (VStr "p1_m1")])
  /\ (check_table_constraints Sample.keep_cell Sample.keeper_uploader
        Sample.batch w).1 = Ok Sample.batch
  /\ getcol Sample.batch "player_match" = Ok [Some (VStr "p9_m9")].
Proof.
  cbv zeta. split; [apply foreign_keys_of_chars|].
  repeat split; vm_compute; reflexivity.
Qed.

(** The uploader's [update_db_dict] leaves the index alone or gives the
    entry the primary keys of the frame it is handed. *)
Lemma update_db_dict_writes_given_keys (self : Uploader) (data : DataFrame)
    (w : World) :
  db_dict_json (update_db_dict self data w).2 = db_dict_json w
  \/ exists keys, getcol data (primary_key self) = Ok keys
                  /\ ids <$> db_dict_json (update_db_dict self data w).2
                              !! fmt (name self) = Some keys.
Proof.
  unfold update_db_dict, try_except, load_db_dict, gets, lift, mbind, M_bind.
  destruct (getcol data (primary_key self)) as [keys|e]; simpl; [|by left].
  destruct (db_dict_json w !! fmt (name self)); simpl; [|by left].
  right. exists keys. split; [done|]. by rewrite lookup_insert_eq.
Qed.

(** C1, at the failing input: the uploader's [update_db_dict] writes the
    keys of the frame it is handed, and [upload_clean_data] hands it the
    rows that passed the constraint check.  Production holds key A and
    the batch brings key B.  After the cleaner the production file and
    the index both hold A and B; after the upload the database holds A
    and B and the index entry holds B alone. *)
Theorem upload_rewrites_index_with_new_keys_only :
  let w := Sample.after_clean in
  let w' := (upload_clean_data Sample.keep_cell Sample.store_appends
               Sample.keeper_uploader (Some "2024_07_01_run1") w) in
  (forall (self : Uploader) (data : DataFrame) (w0 : World),
     db_dict_json (update_db_dict self data w0).2 = db_dict_json w0
     \/ exists keys, getcol data (primary_key self) = Ok keys
                     /\ ids <$> db_dict_json (update_db_dict self data w0).2
                                 !! fmt (name self) = Some keys)
  /\ ((fun t => getcol t "keeper_match")
     <$> csv_files w !! "data/db_tables/keeper_matches.csv"
   = Some (Ok [Some (VStr "A"); Some (VStr "B")]))
  /\ (ids <$> db_dict_json w !! "keeper_matches"
      = Some [Some (VStr "A"); Some (VStr "B")])
  /\ w'.1 = Ok tt
  /\ ((fun t => getcol t "keeper_match") <$> database (w'.2) !! "keeper_matches"
      = Some (Ok [Some (VStr "A"); Some (VStr "B")]))
  /\ (ids <$> db_dict_json (w'.2) !! "keeper_matches" = Some [Some (VStr "B")]).
Proof.
  cbv zeta. split; [apply update_db_dict_writes_given_keys|].
  repeat split; vm_compute; reflexivity.
Qed.

(** C3, as stated, fails: with a store that refuses every chunk the
    commit fails and nothing reaches the database, yet the index entry
    of the entity is rewritten and the step is logged completed. *)
Lemma store_error_still_updates_index :
  let w := Sample.after_clean in
  let w' := (upload_clean_data Sample.keep_cell Sample.store_refuses
               Sample.keeper_uploader (Some "2024_07_01_run1") w).2 in
  log w' = log w ++ [(ERROR, UploadError DatabaseError)]
  /\ database w' = database w
  /\ db_dict_json w' !! "keeper_matches" ≠ db_dict_json w !! "keeper_matches"
  /\ Workflow.completed
       (log (Sample.run Sample.store_refuses (Some "keeper_matches")
               (Sample.world ["yes"; "yes"])).2)
     = ["keeper_matches"].
Proof.
  cbv zeta. split; [|split; [|split]].
  - vm_compute. reflexivity.
  - vm_compute. reflexivity.
  - intros H. apply (f_equal (fmap ids)) in H. vm_compute in H. discriminate H.
  - vm_compute. reflexivity.
Qed.

Section Commit.
Variable to_int64 : Cell -> Cell.

Lemma for_each_commit_keeps_index
    (to_sql : string -> DataFrame -> gmap string DataFrame ->
              Result (gmap string DataFrame))
    (n : string) (cols : list string) (l : list (list Row)) (w : World) :
  db_dict_json
    (for_each l
       (fun chunk w =>
          match to_sql n (mkDF cols chunk) (database w) with
          | Ok db => (Ok tt, set_database db w)
          | Raise e => (Raise e, w)
          end) w).2
  = db_dict_json w.
Proof.
  revert w. induction l as [|chunk l IH]; intros w; [reflexivity|].
  cbn [for_each]. rewrite bind_run.
  destruct (to_sql n (mkDF cols chunk) (database w)) as [db|e]; [|reflexivity].
  by rewrite IH.
Qed.

(** [upload_to_db] returns normally whatever the store does, and does
    not touch the index. *)
Lemma upload_to_db_returns
    (to_sql : string -> DataFrame -> gmap string DataFrame ->
              Result (gmap string DataFrame))
    (self : Uploader) (data : DataFrame) (w : World) :
  (upload_to_db to_sql self data w).1 = Ok tt
  /\ db_dict_json (upload_to_db to_sql self data w).2 = db_dict_json w.
Proof.
  unfold upload_to_db, try_except.
  pose proof (for_each_commit_keeps_index to_sql (fmt (name self))
                (columns data) (chunks (length (rows data)) (rows data)) w) as H.
  destruct (for_each _ _ w) as [[[]|e] w']; simpl in *; auto.
Qed.

(** [update_db_dict] reads nothing of the world but the index. *)
Lemma update_db_dict_reads_index (self : Uploader) (data : DataFrame)
    (w1 w2 : World) :
  db_dict_json w1 = db_dict_json w2 ->
  (update_db_dict self data w1).1 = (update_db_dict self data w2).1
  /\ db_dict_json (update_db_dict self data w1).2
     = db_dict_json (update_db_dict self data w2).2.
Proof.
  intros H.
  unfold update_db_dict, try_except, load_db_dict, gets, lift, mbind, M_bind.
  rewrite H.
  destruct (getcol data (primary_key self)) as [keys|e]; simpl; [|auto].
  destruct (db_dict_json w2 !! fmt (name self)); simpl; auto.
Qed.

(** C3, amended: when committing an entity's rows to the relational
    store fails, [upload_to_db] catches and logs the error and returns
    normally, so the failure does not end the step in the failed
    state, and the index is rewritten exactly as it is after a commit
    that succeeds: the outcome of [upload_clean_data] and the index it
    leaves are the same for every behaviour of the store. *)
Theorem store_error_is_swallowed
    (to_sql to_sql' : string -> DataFrame -> gmap string DataFrame ->
                      Result (gmap string DataFrame))
    (self : Uploader) (update_id : option string) (data : DataFrame) (w : World) :
  (upload_to_db to_sql self data w).1 = Ok tt
  /\ (upload_clean_data to_int64 to_sql self update_id w).1
     = (upload_clean_data to_int64 to_sql' self update_id w).1
  /\ db_dict_json (upload_clean_data to_int64 to_sql self update_id w).2
     = db_dict_json (upload_clean_data to_int64 to_sql' self update_id w).2.
Proof.
  split; [apply upload_to_db_returns|].
  unfold upload_clean_data. rewrite !bind_run.
  destruct (read_csv _ w) as [[d|e] w1]; [|auto].
  rewrite !bind_run.
  destruct (check_table_constraints to_int64 self d w1) as [[cd|e] w2]; [|auto].
  rewrite !bind_run.
  destruct (upload_to_db_returns to_sql self cd w2) as [Hr1 Hi1].
  destruct (upload_to_db_returns to_sql' self cd w2) as [Hr2 Hi2].
  destruct (upload_to_db to_sql self cd w2) as [r1 w3].
  destruct (upload_to_db to_sql' self cd w2) as [r2 w3'].
  simpl in *. subst r1 r2.
  apply update_db_dict_reads_index. congruence.
Qed.

End Commit.

End UploadFacts.

(** ** The reconciliation *)

Module ReconcileFacts.
Import FbrefClean FbrefCleanMatchStats UpsertFacts.
#[local] Open Scope list_scope.

Lemma ends_with_refl (s : string) : ends_with s s = true.
Proof. destruct s; cbn [ends_with]; by rewrite decide_True. Qed.

Lemma ends_with_app (suffix a : string) :
  ends_with suffix (a +:+ suffix) = true.
Proof.
  induction a as [|ch a IH].
  - change (ends_with suffix suffix = true). apply ends_with_refl.
  - change (ends_with suffix (String ch (a +:+ suffix)) = true).
    cbn [ends_with]. by destruct (decide _).
Qed.

(** *** Relabelled rows *)

Lemma relabel_cons (f : string -> string) (c : string) (cols : list string)
    (r : Row) :
  relabel f (c :: cols) r
  = match r !! c with
    | Some v => <[f c := v]> (relabel f cols r)
    | None => relabel f cols r
    end.
Proof. unfold relabel. simpl. by destruct (r !! c). Qed.

Lemma relabel_lookup_Some (f : string -> string) (cols : list string) (r : Row)
    (l : string) (v : Value) :
  relabel f cols r !! l = Some v ->
  exists c, c ∈ cols /\ f c = l /\ r !! c = Some v.
Proof.
  induction cols as [|c cols IH]; [discriminate|].
  rewrite relabel_cons. destruct (r !! c) as [v'|] eqn:E.
  - rewrite lookup_insert. case_decide as Hfc.
    + intros [= <-]. exists c. split; [left | done].
    + intros H. destruct (IH H) as (c' & ? & ? & ?). exists c'. split; [by right | done].
  - intros H. destruct (IH H) as (c' & ? & ? & ?). exists c'. split; [by right | done].
Qed.

Lemma relabel_lookup (f : string -> string) (cols : list string) (r : Row)
    (c : string) (v : Value) :
  c ∈ cols -> r !! c = Some v ->
  (forall c0, c0 ∈ cols -> f c0 = f c -> c0 = c) ->
  relabel f cols r !! f c = Some v.
Proof.
  induction cols as [|c1 cols IH]; intros Hc Hv Hinj; [inversion Hc|].
  rewrite relabel_cons. destruct (decide (c1 = c)) as [->|Hne].
  - rewrite Hv. apply lookup_insert_eq.
  - apply elem_of_cons in Hc as [->|Hc]; [done|].
    assert (Hf : f c1 ≠ f c).
    { intros Heq. apply Hne, Hinj; [left | done]. }
    assert (IH' : relabel f cols r !! f c = Some v).
    { apply IH; [done..|]. intros c0 Hc0. apply Hinj. by right. }
    destruct (r !! c1); [by rewrite lookup_insert_ne | done].
Qed.

(** *** First occurrences have distinct keys *)

Lemma keys_filter_NoDup (c : string) (P : Row -> Prop) `{!forall x, Decision (P x)}
    (l : list Row) :
  NoDup (keys c l) -> NoDup (keys c (filter P l)).
Proof.
  induction l as [|x l IH]; [done|]. simpl. intros Hnd.
  apply NoDup_cons in Hnd as [Hx Hnd].
  destruct (decide (P x)).
  - rewrite filter_cons_True by done. simpl. apply NoDup_cons. split; [|auto].
    intros Hin. apply Hx. apply elem_of_keys in Hin as (r & Hr & Hk).
    apply elem_of_keys. exists r. split; [|done].
    apply list_elem_of_filter in Hr. tauto.
  - rewrite filter_cons_False by done. auto.
Qed.

Lemma first_rows_NoDup (c : string) (l : list Row) :
  NoDup (keys c (first_rows c l)).
Proof.
  induction l as [|x l IH]; simpl; [constructor|].
  apply NoDup_cons. split.
  - intros Hin. apply elem_of_keys in Hin as (r & Hr & Hk).
    apply list_elem_of_filter in Hr as [Hne _]. congruence.
  - by apply keys_filter_NoDup.
Qed.

Lemma filter_key_at_most_one (c : string) (x : Cell) (l : list Row) :
  NoDup (keys c l) ->
  filter (fun r : Row => r !! c = x) l = []
  \/ exists r, filter (fun r : Row => r !! c = x) l = [r].
Proof.
  induction l as [|y l IH]; [by left|]. simpl. intros Hnd.
  apply NoDup_cons in Hnd as [Hy Hnd].
  destruct (decide (y !! c = x)) as [Heq|Hne].
  - right. exists y. rewrite filter_cons_True by done. f_equal.
    apply filter_none. intros r Hr Hk. apply Hy. apply elem_of_keys.
    exists r. split; [done | congruence].
  - rewrite filter_cons_False by done. auto.
Qed.

Lemma flat_map_singletons {A B} (g : A -> list B) (l : list A) (i : nat) (x : A) :
  (forall a, a ∈ l -> exists b, g a = [b]) ->
  l !! i = Some x ->
  exists b, g x = [b] /\ flat_map g l !! i = Some b.
Proof.
  revert i. induction l as [|a l IH]; intros i Hg Hi; [discriminate|].
  destruct (Hg a) as [b Hb]; [left|].
  simpl. rewrite Hb. destruct i as [|i]; simpl in *.
  - injection Hi as <-. eauto.
  - apply IH; [|done]. intros a' Ha'. apply Hg. by right.
Qed.

(** *** The loop over the review columns only fills *)

(** [p'] has the columns, labels and non-null cells of [p]. *)
Definition fills (p p' : IndexedFrame) : Prop :=
  index_name p' = index_name p
  /\ icolumns p' = icolumns p
  /\ Forall2 (fun kr kr' : Cell * Row =>
                kr'.1 = kr.1
                /\ forall c v, kr.2 !! c = Some v -> kr'.2 !! c = Some v)
             (irows p) (irows p').

Definition same_labels (d d' : IndexedFrame) : Prop :=
  index_name d' = index_name d /\ map fst (irows d') = map fst (irows d).

Lemma Forall2_map_self {A} (R : A -> A -> Prop) (h : A -> A) (l : list A) :
  (forall x, R x (h x)) -> Forall2 R l (map h l).
Proof. intros Hh. induction l; simpl; constructor; auto. Qed.

Lemma fills_refl (p : IndexedFrame) : fills p p.
Proof.
  split; [done|]. split; [done|]. rewrite <- (map_id (irows p)) at 2.
  apply Forall2_map_self. auto.
Qed.

Lemma fills_trans (p1 p2 p3 : IndexedFrame) :
  fills p1 p2 -> fills p2 p3 -> fills p1 p3.
Proof.
  intros (Hn1 & Hc1 & H1) (Hn2 & Hc2 & H2).
  split; [congruence|]. split; [congruence|].
  eapply Forall2_trans; [|exact H1|exact H2].
  intros x y z [Hxy Hxy'] [Hyz Hyz']. split; [congruence | auto].
Qed.

Lemma set_cell_keeps (col : string) (x : Cell) (r : Row) (c : string) (v : Value) :
  r !! col = None -> r !! c = Some v -> set_cell col x r !! c = Some v.
Proof.
  intros Hcol Hc. assert (col ≠ c) by congruence.
  destruct x; simpl; [by rewrite lookup_insert_ne | by rewrite lookup_delete_ne].
Qed.

Lemma drop_column_labels (c : string) (d d' : IndexedFrame) :
  drop_column c d = Ok d' -> same_labels d d'.
Proof.
  unfold drop_column. destruct (decide _); [|discriminate].
  intros [= <-]. unfold same_labels. simpl. split; [done|].
  rewrite map_map. by apply map_ext.
Qed.

Lemma fill_step_fills (col : string) (p d p' d' : IndexedFrame) :
  fill_step col (p, d) = Ok (p', d') -> fills p p' /\ same_labels d d'.
Proof.
  unfold fill_step. destruct (decide (col ∈ icolumns p)); [|discriminate].
  destruct (decide (0 < length _)%nat).
  - destruct (decide (col ∈ icolumns d)); [|discriminate].
    cbn [mbind result_bind].
    destruct (drop_column col d) as [rest|] eqn:E; [|discriminate].
    cbn [mbind result_bind]. intros [= <- <-].
    split; [|by eapply drop_column_labels].
    split; [done|]. split; [done|]. simpl.
    apply Forall2_map_self. intros [lab r]. simpl.
    case_bool_decide as Hna; simpl; [|auto].
    case_bool_decide; simpl; [|auto].
    split; [done|]. intros c v Hc. by apply set_cell_keeps.
  - cbn [mbind result_bind].
    destruct (drop_column col d) as [rest|] eqn:E; [|discriminate].
    cbn [mbind result_bind]. intros [= <- <-].
    split; [apply fills_refl | by eapply drop_column_labels].
Qed.

Lemma fill_review_cols_fills (cols : list string) (p d : IndexedFrame) :
  fills p (fill_review_cols cols (p, d)).1
  /\ same_labels d (fill_review_cols cols (p, d)).2.
Proof.
  revert p d. induction cols as [|col cols IH]; intros p d; cbn [fill_review_cols].
  - split; [apply fills_refl | done].
  - destruct (fill_step col (p, d)) as [[p1 d1]|] eqn:E.
    + apply fill_step_fills in E as [Hp Hd].
      destruct (IH p1 d1) as [Hp' Hd']. split.
      * by eapply fills_trans.
      * unfold same_labels in *. destruct Hd, Hd'. split; congruence.
    + split; [apply fills_refl | done].
Qed.

(** *** Frames prepared for the loop *)

Lemma prepare_inv (k : string) (df a b : DataFrame) (f : IndexedFrame) :
  dropna k df = Ok a -> drop_duplicates k a = Ok b -> set_index k b = Ok f ->
  k ∈ columns df
  /\ f = mkIF k (filter (fun c => c ≠ k) (columns df))
              (map (fun r : Row => (r !! k, delete k r))
                   (first_rows k (notna_rows k (rows df)))).
Proof.
  unfold dropna, drop_duplicates, set_index.
  destruct (decide (k ∈ columns df)); [|discriminate]. intros [= <-]. simpl.
  rewrite decide_True by done. intros [= <-]. simpl.
  rewrite decide_True by done. intros [= <-]. done.
Qed.

Lemma reset_index_key (f : IndexedFrame) :
  keys (index_name f) (rows (reset_index f)) = map fst (irows f).
Proof.
  unfold keys, reset_index. simpl. rewrite map_map. apply map_ext.
  intros [[v|] r]; simpl; [apply lookup_insert_eq | apply lookup_delete_eq].
Qed.

Lemma elem_of_map {A B} (f : A -> B) (l : list A) (y : B) :
  y ∈ map f l <-> exists x, y = f x /\ x ∈ l.
Proof.
  rewrite list_elem_of_In, in_map_iff. setoid_rewrite list_elem_of_In.
  firstorder.
Qed.

(** *** The left join keeps the left cells *)

(** A left cell under a label without suffix: the label stays on the
    left side only, and the joined row holds the cell on its left. *)
Lemma merge_left_row (k : string) (L R : DataFrame) (merged : Joined)
    (i : nat) (l : Row) (c : string) (v : Value) :
  merge_left k L R = Ok merged ->
  NoDup (keys k (rows R)) ->
  rows L !! i = Some l ->
  c ∈ columns L -> l !! c = Some v ->
  c ∈ left_labels merged \/ c ∈ right_labels merged ->
  ends_with "_x" c = false -> ends_with "_y" c = false ->
  (c ∉ right_labels merged)
  /\ exists y, jrows merged !! i = Some y /\ y.1 !! c = Some v.
Proof.
  intros Hm Hnd Hi HcL Hv Hcm Hx Hy. unfold merge_left in Hm.
  destruct (decide (k ∈ columns L ∧ k ∈ columns R)) as [[HkL HkR]|]; [|discriminate].
  cbv zeta in Hm.
  set (shared := fun c0 : string =>
                   bool_decide (c0 ≠ k ∧ c0 ∈ columns L ∧ c0 ∈ columns R)) in *.
  set (lname := fun c0 : string => if shared c0 then c0 +:+ "_x" else c0) in *.
  set (rname := fun c0 : string => if shared c0 then c0 +:+ "_y" else c0) in *.
  set (rcols := filter (fun c0 : string => c0 ≠ k) (columns R)) in *.
  match type of Hm with
  | match ?x with _ => _ end = _ => destruct x; [|discriminate]
  end.
  injection Hm as <-. cbn [left_labels right_labels jrows] in *.
  (* a label without suffix is a label that was not renamed *)
  assert (Hl : forall c0, lname c0 = c -> c0 = c).
  { intros c0. unfold lname. destruct (shared c0); [|done].
    intros <-. by rewrite ends_with_app in Hx. }
  assert (Hr : forall c0, rname c0 = c -> c0 = c).
  { intros c0. unfold rname. destruct (shared c0); [|done].
    intros <-. by rewrite ends_with_app in Hy. }
  assert (Hns : shared c = false).
  { destruct (shared c) eqn:Es; [exfalso|done].
    destruct Hcm as [Hin|Hin]; apply elem_of_map in Hin as (c0 & Heq & Hc0).
    - assert (c0 = c) as -> by (apply Hl; symmetry; exact Heq).
      assert (Hcx : c = c +:+ "_x").
      { transitivity (lname c); [exact Heq | unfold lname; by rewrite Es]. }
      pose proof (ends_with_app "_x" c) as He. rewrite <- Hcx in He. congruence.
    - assert (c0 = c) as -> by (apply Hr; symmetry; exact Heq).
      assert (Hcy : c = c +:+ "_y").
      { transitivity (rname c); [exact Heq | unfold rname; by rewrite Es]. }
      pose proof (ends_with_app "_y" c) as He. rewrite <- Hcy in He. congruence. }
  assert (Hlc : lname c = c) by (unfold lname; by rewrite Hns).
  split.
  { intros Hin. apply elem_of_map in Hin as (c0 & Heq & Hc0).
    assert (c0 = c) as -> by (apply Hr; symmetry; exact Heq).
    apply list_elem_of_filter in Hc0 as [Hne HcR].
    assert (shared c = true) by (apply bool_decide_eq_true; done).
    congruence. }
  assert (Hrel : relabel lname (columns L) l !! lname c = Some v).
  { apply relabel_lookup; [done..|].
    intros c0 _ Heq. apply Hl. congruence. }
  rewrite Hlc in Hrel.
  edestruct (flat_map_singletons
               (fun l0 : Row =>
                  match filter (fun r : Row => r !! k = l0 !! k) (rows R) with
                  | [] => [(relabel lname (columns L) l0, (∅ : Row))]
                  | (_ :: _) as ms =>
                      map (fun r : Row => (relabel lname (columns L) l0,
                                           relabel rname rcols r)) ms
                  end) (rows L) i l) as (y & Hg & Hyi); [|exact Hi|].
  { intros a0 _. cbv beta.
    destruct (filter_key_at_most_one k (a0 !! k) (rows R) Hnd) as [E|[r0 E]];
      rewrite E; simpl; eauto. }
  exists y. split; [exact Hyi|].
  cbv beta in Hg.
  destruct (filter_key_at_most_one k (l !! k) (rows R) Hnd) as [E|[r0 E]];
    rewrite E in Hg; simpl in Hg; injection Hg as <-; exact Hrel.
Qed.

(** *** The selection of the output columns *)

Lemma elem_of_columns_under (cols : list string) (j : Joined) (c : string)
    (s : Side) :
  (c, s) ∈ columns_under cols j ->
  c ∈ cols
  /\ match s with
     | OnLeft => c ∈ left_labels j
     | OnRight => c ∈ right_labels j
     end.
Proof.
  unfold columns_under. rewrite list_elem_of_In, in_flat_map.
  intros (c0 & Hc0 & Hin). apply list_elem_of_In in Hc0.
  apply in_app_or in Hin as [Hin|Hin].
  - destruct (decide (c0 ∈ left_labels j)); [|inversion Hin].
    destruct Hin as [[= <- <-]|[]]. done.
  - destruct (decide (c0 ∈ right_labels j)); [|inversion Hin].
    destruct Hin as [[= <- <-]|[]]. done.
Qed.

Lemma labels_of_columns_under (cols : list string) (j : Joined) (c : string) :
  c ∈ map fst (columns_under cols j)
  <-> c ∈ cols /\ (c ∈ left_labels j \/ c ∈ right_labels j).
Proof.
  split.
  - intros Hin. apply elem_of_map in Hin as ([c0 s] & -> & Hin).
    apply elem_of_columns_under in Hin as [Hc Hs].
    split; [done|]. destruct s; [by left | by right].
  - intros [Hc Hs]. apply elem_of_map.
    destruct Hs as [Hs|Hs]; [exists (c, OnLeft) | exists (c, OnRight)];
      (split; [done|]); unfold columns_under;
      apply list_elem_of_In, in_flat_map; exists c;
      (split; [by apply list_elem_of_In|]); apply in_or_app.
    + left. rewrite decide_True by done. by left.
    + right. rewrite decide_True by done. by left.
Qed.

Lemma select_joined_inv (cols : list string) (j : Joined) (out : Table) :
  select_joined cols j = Ok out ->
  out = mkTable (map fst (columns_under cols j))
                (map (fun lr => map (cell_at lr) (columns_under cols j)) (jrows j))
  /\ forall c, c ∈ cols -> c ∈ left_labels j \/ c ∈ right_labels j.
Proof.
  unfold select_joined.
  destruct (filter (fun c => c ∉ left_labels j ++ right_labels j) cols)
    as [|c0 rest] eqn:E; [|discriminate].
  intros [= <-]. split; [done|]. intros c Hc.
  destruct (decide (c ∈ left_labels j ++ right_labels j)) as [Hin|Hn];
    [by apply elem_of_app in Hin|].
  assert (Hin : c ∈ filter (fun c => c ∉ left_labels j ++ right_labels j) cols)
    by (by apply list_elem_of_filter).
  rewrite E in Hin. inversion Hin.
Qed.

Lemma load_dfs_lookup (self : Cleaner) (update_id : option string)
    (stats : list string) (acc dfs : gmap string DataFrame) (w w1 : World) :
  load_dfs self update_id stats acc w = (Ok dfs, w1) ->
  w1 = w
  /\ forall stat, dfs !! stat
                  = if decide (stat ∈ stats)
                    then csv_files w !! temp_path self stat update_id
                    else acc !! stat.
Proof.
  revert acc. induction stats as [|s stats IH]; intros acc; cbn [load_dfs].
  - intros [= <- <-]. split; [done|]. intros stat.
    rewrite decide_False; [done | by intros H; inversion H].
  - rewrite UploadFacts.bind_run. unfold read_csv at 1.
    destruct (csv_files w !! temp_path self s update_id) as [df|] eqn:E;
      [|discriminate].
    intros H. apply IH in H as [-> H]. split; [done|]. intros stat.
    rewrite H. destruct (decide (stat ∈ stats)) as [Hin|Hnin].
    + rewrite decide_True; [done | by right].
    + destruct (decide (stat = s)) as [->|Hne].
      * rewrite decide_True by left. by rewrite lookup_insert_eq.
      * rewrite decide_False; [by rewrite lookup_insert_ne|].
        intros [?|?]%elem_of_cons; done.
Qed.

Section FillOnly.

Variable merge_outer : string -> DataFrame -> DataFrame -> Result DataFrame.
Variable read_back : Table -> DataFrame.

Ltac inv_bind H :=
  match type of H with
  | mbind _ ?m = Ok _ =>
      let E := fresh "E" in
      destruct m eqn:E; cbn [mbind result_bind] in H; [|discriminate H]
  end.

Lemma new_match_stats_clean_inv (self : Cleaner) (k primary_stat : string)
    (dfs : gmap string DataFrame) (primary_raw : DataFrame) (out : Table) :
  new_match_stats_clean merge_outer self k primary_stat dfs = Ok out ->
  dfs !! primary_stat = Some primary_raw ->
  exists (dc : DataFrame) (st : IndexedFrame * IndexedFrame)
         (merged : Joined) (all_cols : list string),
    k ∈ columns primary_raw
    /\ fills (mkIF k (filter (fun c => c ≠ k) (columns primary_raw))
                (map (fun r : Row => (r !! k, delete k r))
                     (first_rows k (notna_rows k (rows primary_raw)))))
             (st.1)
    /\ same_labels (mkIF k (filter (fun c => c ≠ k) (columns dc))
                      (map (fun r : Row => (r !! k, delete k r))
                           (first_rows k (notna_rows k (rows dc)))))
                   (st.2)
    /\ merge_left k (reset_index (st.1)) (reset_index (st.2)) = Ok merged
    /\ all_cols_of (column_map self) = Ok all_cols
    /\ select_joined all_cols merged = Ok out.
Proof.
  intros H Hdfs. unfold new_match_stats_clean in H. rewrite Hdfs in H.
  do 10 inv_bind H.
  repeat match goal with
         | E1 : dropna k ?df = Ok ?a, E2 : drop_duplicates k ?a = Ok ?b,
           E3 : set_index k ?b = Ok ?f |- _ =>
             let Hk := fresh "Hk" in
             destruct (prepare_inv k df a b f E1 E2 E3) as [Hk ->];
             clear E1 E2 E3
         end.
  match goal with
  | E : merge_left k (reset_index (?st.1)) _ = Ok ?m |- _ =>
      match goal with
      | _ : dfs !! primary_stat = _ ,
        _ : match _ with Some _ => _ | None => _ end = Ok ?dc |- _ =>
          exists dc, st, m
      end
  end.
  eexists. split; [assumption|].
  split; [|split; [|split; [eassumption | split; [reflexivity | exact H]]]].
  - destruct (review_cols_of _ _); [apply fill_review_cols_fills | apply fills_refl].
  - destruct (review_cols_of _ _); [apply fill_review_cols_fills | by split].
Qed.

Lemma new_match_stats_clean_fill_only (self : Cleaner) (k primary_stat : string)
    (dfs : gmap string DataFrame) (primary_raw : DataFrame) (out : Table)
    (c : string) (i : nat) (r : Row) (v : Value) :
  new_match_stats_clean merge_outer self k primary_stat dfs = Ok out ->
  dfs !! primary_stat = Some primary_raw ->
  c ∈ columns primary_raw -> c ∈ tlabels out ->
  ends_with "_x" c = false -> ends_with "_y" c = false ->
  first_rows k (notna_rows k (rows primary_raw)) !! i = Some r ->
  r !! c = Some v ->
  exists o, trows out !! i = Some o
            /\ forall j, tlabels out !! j = Some c -> o !! j = Some (Some v).
Proof.
  intros H Hdfs Hcp Hco Hx Hy Hi Hv.
  destruct (new_match_stats_clean_inv _ _ _ _ _ _ H Hdfs)
    as (dc & [p1 d1] & merged & all_cols & Hk & Hp & Hd & Hm & _ & Hsel).
  cbn [fst snd] in *.
  destruct Hp as (Hpn & Hpc & Hprows). destruct Hd as (Hdn & Hdrows).
  cbn [index_name icolumns irows] in *.
  apply select_joined_inv in Hsel as [-> _]. cbn [tlabels trows] in *.
  apply labels_of_columns_under in Hco as [_ Hcm].
  (* the i-th left row holds the cell *)
  assert (Hl : exists l, rows (reset_index p1) !! i = Some l /\ l !! c = Some v).
  { assert (Hi0 : map (fun r : Row => (r !! k, delete k r))
                      (first_rows k (notna_rows k (rows primary_raw))) !! i
                  = Some (r !! k, delete k r)).
    { change (map ?f ?l) with (f <$> l). by rewrite list_lookup_fmap, Hi. }
    destruct (Forall2_lookup_l _ _ _ _ _ Hprows Hi0) as ([lab r'] & Hi1 & Hlab & Hcells).
    cbn [fst snd] in *. subst lab.
    exists (match r !! k with
            | Some kv => <[k := kv]> r'
            | None => delete k r'
            end).
    split.
    - unfold reset_index. cbn [rows].
      change (map ?f ?l) with (f <$> l). rewrite list_lookup_fmap, Hi1.
      cbn. by rewrite Hpn.
    - destruct (decide (c = k)) as [->|Hne].
      + rewrite Hv. apply lookup_insert_eq.
      + assert (r' !! c = Some v) by (apply Hcells; by rewrite lookup_delete_ne).
        destruct (r !! k); [by rewrite lookup_insert_ne | by rewrite lookup_delete_ne]. }
  destruct Hl as (l & Hli & Hlc).
  destruct (merge_left_row k (reset_index p1) (reset_index d1) merged i l c v)
    as (Hnr & y & Hyi & Hyc); try done.
  - rewrite <- Hdn at 1. rewrite reset_index_key, Hdrows.
    rewrite map_map. cbn [fst]. apply first_rows_NoDup.
  - unfold reset_index. cbn [columns]. rewrite Hpn, Hpc.
    destruct (decide (c = k)) as [->|Hne]; [left|right].
    by apply list_elem_of_filter.
  - exists (map (cell_at y) (columns_under all_cols merged)). split.
    + change (map ?f ?l) with (f <$> l) at 1. by rewrite list_lookup_fmap, Hyi.
    + intros j Hj.
      change (map ?f ?l !! j) with ((f <$> l) !! j) in Hj.
      change (map ?f ?l !! j) with ((f <$> l) !! j).
      rewrite list_lookup_fmap in Hj. rewrite list_lookup_fmap.
      destruct (columns_under all_cols merged !! j) as [[c0 s]|] eqn:Ej;
        [|discriminate].
      cbn in Hj. injection Hj as ->. cbn.
      apply list_elem_of_lookup_2, elem_of_columns_under in Ej as [_ Hs].
      destruct s; [|done]. unfold cell_at. cbn. by rewrite Hyc.
Qed.

(** C6, amended: for every column of the primary sub-table (every
    review column in particular) whose label does not end in one of
    the join suffixes "_x" and "_y", and every row of the
    deduplicated primary sub-table whose cell in that column is not
    null, the reconciled output holds that cell for that row in every
    column that bears the label, whatever the secondary sub-tables
    hold. *)
Theorem reconciliation_fill_only (self : Cleaner) (update_id : option string)
    (w w' : World) (out : Table) (primary_raw : DataFrame)
    (k primary_stat c : string) (i : nat) (r : Row) (v : Value) :
  concat_clean_save_all_match_stats merge_outer read_back self update_id w
  = (Ok out, w') ->
  primary_key self = Some k ->
  head (stats self) = Some primary_stat ->
  csv_files w !! temp_path self primary_stat update_id = Some primary_raw ->
  c ∈ columns primary_raw -> c ∈ tlabels out ->
  ends_with "_x" c = false -> ends_with "_y" c = false ->
  first_rows k (notna_rows k (rows primary_raw)) !! i = Some r ->
  r !! c = Some v ->
  exists o, trows out !! i = Some o
            /\ forall j, tlabels out !! j = Some c -> o !! j = Some (Some v).
Proof.
  intros H Hk Hps Hfile. unfold concat_clean_save_all_match_stats in H.
  destruct (stats self) as [|ps rest] eqn:Es; [discriminate|].
  injection Hps as ->.
  rewrite UploadFacts.bind_run in H. cbn [lift] in H.
  rewrite UploadFacts.bind_run in H.
  destruct (load_dfs self update_id (primary_stat :: rest) ∅ w)
    as [[dfs|e] w1] eqn:El; [|discriminate].
  apply load_dfs_lookup in El as [-> Hdfs].
  unfold the_primary_key in H. rewrite Hk in H.
  rewrite UploadFacts.bind_run in H. cbn [lift] in H.
  rewrite UploadFacts.bind_run in H. cbn [lift] in H.
  destruct (new_match_stats_clean merge_outer self k primary_stat dfs)
    as [out'|e] eqn:En; [|discriminate].
  rewrite UploadFacts.bind_run in H. cbn in H. injection H as <- _.
  eapply new_match_stats_clean_fill_only; [exact En|].
  rewrite Hdfs, decide_True by left. exact Hfile.
Qed.

End FillOnly.

(** C6, as stated, fails: the review list names "ghost", which no frame
    has, so the loop stops at once and "a_x" stays in both frames; the
    join renames the primary's "a" to "a_x", and the output holds under
    "a_x" the value 1 where the primary row holds 2. *)
Lemma reconciliation_replaces_suffixed_column :
  let self := Sample.player_matches_cleaner ["ghost"; "a_x"] ["player_match"; "a_x"] in
  let run := concat_clean_save_all_match_stats Sample.no_outer Sample.read_back self
               (Some "2024_07_01_run1") Sample.temp_world in
  review_cols_of (column_map self) "summary" = Ok ["ghost"; "a_x"]
  /\ ((fun r : Row => r !! "a_x")
        <$> first_rows "player_match"
              (notna_rows "player_match" (rows Sample.summary_clean)) !! 0%nat
      = Some (Some (VInt 2)))
  /\ run.1 = Ok (mkTable ["player_match"; "a_x"]
                         [[Some (VStr "p1_m1"); Some (VInt 1)]]).
Proof.
  cbv zeta. split; [vm_compute; reflexivity|]. split; vm_compute; reflexivity.
Qed.

Lemma reconciliation_fill_only_witness :
  let self := Sample.player_matches_cleaner ["a"; "a_x"] ["player_match"; "a_x"; "a"] in
  let run := concat_clean_save_all_match_stats Sample.no_outer Sample.read_back self
               (Some "2024_07_01_run1") Sample.temp_world in
  let out := mkTable ["player_match"; "a_x"; "a"]
                     [[Some (VStr "p1_m1"); Some (VInt 2); Some (VInt 1)]] in
  run.1 = Ok out
  /\ exists o, trows out !! 0%nat = Some o
               /\ forall j, tlabels out !! j = Some "a" -> o !! j = Some (Some (VInt 1)).
Proof.
  cbv zeta. split; [vm_compute; reflexivity|].
  apply (reconciliation_fill_only Sample.no_outer Sample.read_back
           (Sample.player_matches_cleaner ["a"; "a_x"] ["player_match"; "a_x"; "a"])
           (Some "2024_07_01_run1") Sample.temp_world
           (concat_clean_save_all_match_stats Sample.no_outer Sample.read_back
              (Sample.player_matches_cleaner ["a"; "a_x"] ["player_match"; "a_x"; "a"])
              (Some "2024_07_01_run1") Sample.temp_world).2
           (mkTable ["player_match"; "a_x"; "a"]
                    [[Some (VStr "p1_m1"); Some (VInt 2); Some (VInt 1)]])
           Sample.summary_clean "player_match" "summary" "a" 0
           (Sample.stat_row "p1_m1" 1 2) (VInt 1)).
  - vm_compute. reflexivity.
  - reflexivity.
  - reflexivity.
  - vm_compute. reflexivity.
  - apply (bool_decide_unpack _). vm_compute. exact I.
  - apply (bool_decide_unpack _). vm_compute. exact I.
  - vm_compute. reflexivity.
  - vm_compute. reflexivity.
  - vm_compute. reflexivity.
  - vm_compute. reflexivity.
Defined.

(** A label on both sides of the join.  The primary frame has "a" and
    "a_y", the secondary frame has "a": the join renames the secondary
    "a" to "a_y" and keeps both columns, and the output under
    ["player_match"; "a_y"] has three columns, the primary cell first. *)
Lemma reconciliation_keeps_both_columns :
  let summary :=
    mkDF ["player_match"; "a"; "a_y"]
         [<["player_match" := VStr "p1_m1"]>
            (<["a" := VInt 1]> (<["a_y" := VInt 2]> (∅ : Row)))] in
  let passing :=
    mkDF ["player_match"; "a"]
         [<["player_match" := VStr "p1_m1"]> (<["a" := VInt 5]> (∅ : Row))] in
  let w := set_csv_files
             (<["data/fbref/player_matches/temp/summary_df_clean_2024_07_01_run1.csv"
                := summary]>
                (<["data/fbref/player_matches/temp/passing_df_clean_2024_07_01_run1.csv"
                   := passing]> ∅)) Sample.temp_world in
  (concat_clean_save_all_match_stats Sample.no_outer Sample.read_back
     (Sample.player_matches_cleaner [] ["player_match"; "a_y"])
     (Some "2024_07_01_run1") w).1
  = Ok (mkTable ["player_match"; "a_y"; "a_y"]
                [[Some (VStr "p1_m1"); Some (VInt 2); Some (VInt 5)]]).
Proof. cbv zeta. vm_compute. reflexivity. Qed.

End ReconcileFacts.


(** ** More on the upsert: what the merged table holds *)

Module UpsertMore.
Import UpsertFacts ReconcileFacts.
#[local] Open Scope list_scope.

(** A merged table is the first occurrences of the keyed rows of some
    concatenation, and has the key column. *)
Lemma new_table_shape (k : string) (T R : DataFrame) (N : option DataFrame)
    (replace_vals : bool) :
  update_table_new_table k T N replace_vals = Ok R ->
  k ∈ columns R
  /\ exists table : DataFrame,
       rows R = first_rows k (notna_rows k (rows (concat table N)))
       /\ columns table = columns T
       /\ (replace_vals = false -> table = T)
       /\ (replace_vals = true ->
           k ∈ columns T
           /\ exists n, N = Some n /\ k ∈ columns n
              /\ table = filter_rows
                           (fun r => negb (isin (r !! k) (keys k (rows n)))) T).
Proof.
  destruct replace_vals.
  - destruct N as [n|].
    2:{ unfold update_table_new_table. by destruct (getcol T k). }
    rewrite new_table_replace.
    destruct (decide (k ∈ columns T)) as [HT|]; [|discriminate].
    destruct (decide (k ∈ columns n)) as [Hn|]; [|discriminate].
    cbv zeta. intros [= <-]. split.
    + simpl. apply elem_of_union_columns. by left.
    + exists (filter_rows (fun r => negb (isin (r !! k) (keys k (rows n)))) T).
      split; [reflexivity|]. split; [reflexivity|].
      split; [discriminate|]. intros _. split; [done|]. by exists n.
  - rewrite new_table_keep.
    destruct (decide (k ∈ columns (concat T N))) as [Hk|]; [|discriminate].
    intros [= <-]. split; [exact Hk|].
    exists T. split; [reflexivity|]. split; [reflexivity|].
    split; [done | discriminate].
Qed.

(** X1: every row of a merged table has a primary key, and no two rows
    share one. *)
Theorem update_table_keys_unique (k : string) (T R : DataFrame)
    (N : option DataFrame) (replace_vals : bool) :
  update_table_new_table k T N replace_vals = Ok R ->
  NoDup (keys k (rows R))
  /\ Forall (fun r : Row => is_Some (r !! k)) (rows R).
Proof.
  intros H. apply new_table_shape in H as (_ & table & -> & _).
  split; [apply first_rows_NoDup|].
  apply Forall_forall. intros r Hr.
  apply first_rows_subset in Hr. unfold notna_rows in Hr.
  apply list_elem_of_filter in Hr. tauto.
Qed.

Lemma update_table_keys_unique_witness :
  NoDup (keys "pk" [Sample.row_X 1])
  /\ Forall (fun r : Row => is_Some (r !! "pk")) [Sample.row_X 1].
Proof.
  apply (update_table_keys_unique "pk" Sample.production_X
           (mkDF ["pk"; "v"] [Sample.row_X 1]) (Some Sample.new_X) false).
  vm_compute. reflexivity.
Defined.

Lemma keys_notna (k : string) (l : list Row) (v : Value) :
  Some v ∈ keys k (notna_rows k l) <-> Some v ∈ keys k l.
Proof.
  rewrite !elem_of_keys. unfold notna_rows. split.
  - intros (r & Hr & Hk). apply list_elem_of_filter in Hr. exists r. tauto.
  - intros (r & Hr & Hk). exists r. split; [|done].
    apply list_elem_of_filter. split; [by rewrite Hk | done].
Qed.

Lemma keys_restrict (k : string) (cols : list string) (l : list Row) (v : Value) :
  Some v ∈ keys k (map (restrict cols) l) <-> k ∈ cols /\ Some v ∈ keys k l.
Proof.
  rewrite !elem_of_keys. split.
  - intros (r & Hr & Hk). apply elem_of_map in Hr as (r0 & -> & Hr0).
    destruct (decide (k ∈ cols)) as [Hin|Hn].
    + rewrite restrict_lookup in Hk by done. eauto.
    + unfold restrict in Hk. apply map_lookup_filter_Some in Hk as [_ Hk]. done.
  - intros (Hin & r & Hr & Hk). exists (restrict cols r). split.
    + apply elem_of_map. eauto.
    + by rewrite restrict_lookup.
Qed.





(** X3: the conflict policy in general.  Without replacement a row of the
    merged table whose key the production table has is a row of the
    production table; with replacement a row whose key the new rows have
    is one of the new rows. *)
Theorem update_table_conflict_winner (k : string) (T n R : DataFrame)
    (replace_vals : bool) (o : Row) :
  update_table_new_table k T (Some n) replace_vals = Ok R ->
  o ∈ rows R ->
  (replace_vals = false -> k ∈ columns T -> o !! k ∈ keys k (rows T) ->
   o ∈ map (restrict (columns T)) (rows T))
  /\ (replace_vals = true -> o !! k ∈ keys k (rows n) ->
      o ∈ map (restrict (columns n)) (rows n)).
Proof.
  intros H Ho. apply new_table_shape in H as (_ & table & HR & Hc & Hf & Ht).
  rewrite HR in Ho. pose proof Ho as Hsome.
  apply first_rows_subset in Hsome. unfold notna_rows in Hsome.
  apply list_elem_of_filter in Hsome as [[v Hv] Hin].
  cbn [concat rows] in *. split.
  - intros -> HkT Hk. rewrite (Hf eq_refl) in *.
    rewrite notna_rows_app, first_rows_app in Ho.
    apply elem_of_app in Ho as [Ho|Ho].
    + eauto using first_rows_subset, notna_rows_subset.
    + apply list_elem_of_filter in Ho as [Hn _]. exfalso. apply Hn.
      rewrite Hv in *. apply keys_notna, keys_restrict. done.
  - intros -> Hk. destruct Ht as (HkT & n' & [= <-] & Hkn & ->); [done|].
    cbn [filter_rows rows columns] in Hin.
    apply elem_of_app in Hin as [Hin|Hin]; [exfalso | done].
    apply elem_of_map in Hin as (x & -> & Hx).
    apply list_elem_of_filter in Hx as [Hx _].
    apply negb_true_iff, bool_decide_eq_false in Hx. apply Hx.
    by rewrite restrict_lookup in Hk.
Qed.

Lemma update_table_conflict_winner_witness :
  (false = false -> "pk" ∈ columns Sample.production_X ->
   Sample.row_X 1 !! "pk" ∈ keys "pk" (rows Sample.production_X) ->
   Sample.row_X 1 ∈ map (restrict (columns Sample.production_X))
                        (rows Sample.production_X))
  /\ (false = true -> Sample.row_X 1 !! "pk" ∈ keys "pk" (rows Sample.new_X) ->
      Sample.row_X 1 ∈ map (restrict (columns Sample.new_X)) (rows Sample.new_X)).
Proof.
  apply (update_table_conflict_winner "pk" Sample.production_X Sample.new_X
           (mkDF ["pk"; "v"] [Sample.row_X 1]) false (Sample.row_X 1)).
  - vm_compute. reflexivity.
  - simpl. left.
Defined.

End UpsertMore.

(** ** More on the cleaner: production file and index move together *)

Module CleanerMore.
Import FbrefClean UpsertFacts UploadFacts.
#[local] Open Scope list_scope.

(** The production file of a cleaner. *)
Definition production_path (self : Cleaner) : string :=
  "data/db_tables/" +:+ fmt (name self) +:+ ".csv".


Lemma fbref_path_not_production (a b : string) :
  "data/fbref/" +:+ a ≠ "data/db_tables/" +:+ b.
Proof. cbn [String.append]. intros H. discriminate H. Qed.

Lemma update_table_run (self : Cleaner) (d : option DataFrame) (b : bool)
    (w w1 : World) (nt : DataFrame) :
  update_table self d b w = (Ok nt, w1) ->
  exists k, primary_key self = Some k
            /\ update_table_new_table k (db_table self) d b = Ok nt
            /\ w1 = set_csv_files (<[production_path self := nt]> (csv_files w)) w.
Proof.
  unfold update_table, the_primary_key, save_data, to_csv, modify, lift,
    mbind, M_bind, mret, M_ret.
  destruct (primary_key self) as [k|]; [|discriminate].
  destruct (update_table_new_table k (db_table self) d b) as [R|e] eqn:E;
    [|discriminate].
  intros [= <- <-]. by exists k.
Qed.

Lemma update_table_fails (self : Cleaner) (d : option DataFrame) (b : bool)
    (w w1 : World) (e : Exn) :
  update_table self d b w = (Raise e, w1) -> w1 = w.
Proof.
  unfold update_table, the_primary_key, save_data, to_csv, modify, lift,
    mbind, M_bind, mret, M_ret.
  destruct (primary_key self) as [k|]; [|by intros [= _ <-]].
  destruct (update_table_new_table k (db_table self) d b); [discriminate|].
  by intros [= _ <-].
Qed.

(** The cleaner's [update_db_dict] in closed form. *)
Lemma update_db_dict_run (self : Cleaner) (nt : DataFrame) (last_date k : string)
    (w : World) :
  primary_key self = Some k -> k ∈ columns nt ->
  update_db_dict self nt last_date w
  = (Ok tt,
     match db_dict_json w !! fmt (name self) with
     | Some _ =>
         set_db_dict (<[fmt (name self) := mkEntry last_date (keys k (rows nt))]>
                        (db_dict_json w)) w
     | None => add_log ERROR (CouldNotUpdateDbDict (KeyError (fmt (name self)))) w
     end).
Proof.
  intros Hk Hc.
  unfold update_db_dict, try_except, load_db_dict, gets, lift, the_primary_key,
    mbind, M_bind, getcol.
  rewrite Hk. destruct (db_dict_json w !! fmt (name self)); [|reflexivity].
  by rewrite decide_True.
Qed.

(** [backup_table] touches neither the index, nor the database, nor the
    production file. *)
Lemma backup_table_keeps (self : Cleaner) (u : option string) (w : World) :
  db_dict_json (backup_table self u w).2 = db_dict_json w
  /\ database (backup_table self u w).2 = database w
  /\ csv_files (backup_table self u w).2 !! production_path self
     = csv_files w !! production_path self.
Proof.
  unfold backup_table, gets, save_data, to_csv, modify, try_except, input,
    mbind, M_bind, mret, M_ret.
  destruct (csv_files w !! _) as [old|] eqn:E; cbn.
  - destruct (stdin w) as [|ans rest]; cbn; [done|].
    case_bool_decide; cbn; [|done]. repeat split.
    rewrite lookup_insert_ne; [done|]. apply fbref_path_not_production.
  - repeat split. rewrite lookup_insert_ne; [done|]. apply fbref_path_not_production.
Qed.

Lemma input_keeps (w : World) :
  db_dict_json (input w).2 = db_dict_json w
  /\ database (input w).2 = database w
  /\ csv_files (input w).2 = csv_files w.
Proof. unfold input. by destruct (stdin w). Qed.

Section Steps.
Variable clean_data : Cleaner -> option string -> M (option DataFrame).

(** What is left of [clean_save_update_data] once the prompts start. *)
Definition after_cleaning (self : Cleaner) (last_date : string)
    (update_id : option string) (cleaned : option (option DataFrame))
    : M (option DataFrame) :=
  user_input ← input;
  if bool_decide (lower user_input ≠ "yes")
  then raise (Exception "Data cleaning cancelled by user")
  else
    _ ← backup_table self update_id;
    user_input ← input;
    if bool_decide (lower user_input ≠ "yes")
    then raise (Exception "Data cleaning cancelled by user")
    else
      d ← (match cleaned with
           | Some d => mret d
           | None => raise (UnboundLocalError "clean_data")
           end);
      new_table ← update_table self d false;
      _ ← update_db_dict self new_table last_date;
      mret (Some new_table).

(** Once the prompts start, a run that returns a table has saved it to
    production and written its keys to the index entry, if there is one;
    a run that raises has touched neither. *)
Lemma after_cleaning_outcome (self : Cleaner) (last_date : string)
    (update_id : option string) (cleaned : option (option DataFrame)) (w : World) :
  match after_cleaning self last_date update_id cleaned w with
  | (Ok None, _) => False
  | (Ok (Some nt), w') =>
      csv_files w' !! production_path self = Some nt
      /\ exists k d, primary_key self = Some k /\ cleaned = Some d
         /\ update_table_new_table k (db_table self) d false = Ok nt
         /\ (forall entry, db_dict_json w' !! fmt (name self) = Some entry ->
             entry = mkEntry last_date (keys k (rows nt)))
  | (Raise _, w') =>
      db_dict_json w' = db_dict_json w
      /\ database w' = database w
      /\ csv_files w' !! production_path self = csv_files w !! production_path self
  end.
Proof.
  unfold after_cleaning. rewrite bind_run.
  destruct (input_keeps w) as (Hi1 & Hi2 & Hi3).
  destruct (input w) as [[ans|e] w1]; cbn [snd] in *; [|by rewrite Hi3].
  case_bool_decide; [cbn; by rewrite Hi3|].
  rewrite bind_run.
  destruct (backup_table_keeps self update_id w1) as (Hb1 & Hb2 & Hb3).
  destruct (backup_table self update_id w1) as [[[]|e] w2]; cbn [snd] in *;
    [|by rewrite Hb1, Hb2, Hb3, Hi3].
  rewrite bind_run.
  destruct (input_keeps w2) as (Hj1 & Hj2 & Hj3).
  destruct (input w2) as [[ans2|e] w3]; cbn [snd] in *;
    [|by rewrite Hj1, Hj2, Hj3, Hb1, Hb2, Hb3, Hi3].
  case_bool_decide; [cbn; by rewrite Hj1, Hj2, Hj3, Hb1, Hb2, Hb3, Hi3|].
  rewrite bind_run.
  destruct cleaned as [d|]; cbn;
    [|by rewrite Hj1, Hj2, Hj3, Hb1, Hb2, Hb3, Hi3].
  rewrite bind_run.
  destruct (update_table self d false w3) as [[nt|e] w4] eqn:Eu.
  - apply update_table_run in Eu as (k & Hk & Hnt & ->).
    assert (Hc : k ∈ columns nt).
    { apply UpsertMore.new_table_shape in Hnt. tauto. }
    rewrite bind_run, (update_db_dict_run self nt last_date k _ Hk Hc).
    cbn. split.
    + destruct (db_dict_json w3 !! fmt (name self)); cbn; apply lookup_insert_eq.
    + exists k, d. split; [done|]. split; [done|]. split; [done|].
      intros entry. destruct (db_dict_json w3 !! fmt (name self)) eqn:E; cbn.
      * rewrite lookup_insert_eq. by intros [= <-].
      * rewrite E. discriminate.
  - apply update_table_fails in Eu as ->.
    by rewrite Hj1, Hj2, Hj3, Hb1, Hb2, Hb3, Hi3.
Qed.

Lemma clean_save_update_data_split (self : Cleaner) (last_date : string)
    (update_id : option string) (skip_clean : bool) (w : World) :
  exists cleaned w1,
    (skip_clean = true -> cleaned = None /\ w1 = w)
    /\ (skip_clean = false ->
        db_dict_json w1 = db_dict_json (clean_data self update_id w).2
        /\ database w1 = database (clean_data self update_id w).2
        /\ csv_files w1 !! production_path self
           = csv_files (clean_data self update_id w).2 !! production_path self)
    /\ (forall d, cleaned = Some d ->
        skip_clean = false /\ (clean_data self update_id w).1 = Ok d)
    /\ (FbrefClean.clean_save_update_data clean_data self last_date update_id
          skip_clean w
        = match after_cleaning self last_date update_id cleaned w1 with
          | (Ok r, w') => (Ok r, w')
          | (Raise e, w') => (Ok None, add_log ERROR (CouldNotCleanSaveUpdate e) w')
          end
        \/ (skip_clean = false
            /\ exists e, clean_data self update_id w = (Raise e, w1)
               /\ FbrefClean.clean_save_update_data clean_data self last_date
                    update_id skip_clean w
                  = (Ok None, add_log ERROR (CouldNotCleanSaveUpdate e) w1))).
Proof.
  unfold FbrefClean.clean_save_update_data, try_except.
  destruct skip_clean.
  - exists None, w. split; [done|]. split; [done|]. split; [done|]. left.
    rewrite bind_run. cbn [mret M_ret]. fold (after_cleaning self last_date update_id None).
    by destruct (after_cleaning self last_date update_id None w) as [[r|e] w'].
  - destruct (clean_data self update_id w) as [[d|e] w1] eqn:Ec.
    + exists (Some d),
        (match d with
         | Some df => set_csv_files
                        (<["data/fbref/" +:+ fmt (name self) +:+ "/" +:+ fmt (name self)
                           +:+ "_" +:+ fmt update_id +:+ ".csv" := df]> (csv_files w1)) w1
         | None => w1
         end).
      split; [done|]. split; [|split].
      * intros _. cbn [snd]. destruct d as [df|]; [|done]. repeat split. cbn.
        rewrite lookup_insert_ne; [done|]. apply fbref_path_not_production.
      * by intros d0 [= <-].
      * left. rewrite !bind_run, Ec. rewrite bind_run.
        unfold save_data, to_csv, modify. 
        destruct d as [df|].
        -- rewrite bind_run. cbn [mret M_ret].
           fold (after_cleaning self last_date update_id (Some (Some df))).
           by destruct (after_cleaning _ _ _ _ _) as [[r|e] w'].
        -- cbn [mret M_ret].
           fold (after_cleaning self last_date update_id (Some None)).
           by destruct (after_cleaning _ _ _ _ _) as [[r|e] w'].
    + exists None, w1. split; [done|]. split; [done|]. split; [done|].
      right. split; [done|].
      exists e. split; [done|]. by rewrite !bind_run, Ec.
Qed.


(** X5: with [skip_clean=True] the local [clean_data] is never bound, so
    the call never returns a table: it returns nothing and leaves the
    index, the database and the production file as they were. *)
Theorem skip_clean_never_updates (self : Cleaner) (last_date : string)
    (update_id : option string) (w : World) :
  let r := FbrefClean.clean_save_update_data clean_data self last_date
             update_id true w in
  r.1 = Ok None
  /\ db_dict_json (r.2) = db_dict_json w
  /\ database (r.2) = database w
  /\ csv_files (r.2) !! production_path self = csv_files w !! production_path self.
Proof.
  cbv zeta.
  destruct (clean_save_update_data_split self last_date update_id true w)
    as (cleaned & w1 & Hskip & _ & _ & [Hrun|(Hs & _)]); [|discriminate].
  destruct (Hskip eq_refl) as [-> ->].
  pose proof (after_cleaning_outcome self last_date update_id None w) as Ho.
  rewrite Hrun.
  destruct (after_cleaning self last_date update_id None w) as [[[nt|]|e] w'].
  - by destruct Ho as (_ & k & d & _ & Hd & _).
  - done.
  - cbn. by destruct Ho as (-> & -> & ->).
Qed.

End Steps.

(** X6: neither [update_db_dict] touches the index entry of another
    entity, the files or the database. *)
Theorem update_db_dict_frame (self : Cleaner) (uploader : UploadSoccerDB.Uploader)
    (t : DataFrame) (last_date other : string) (w : World) :
  (other ≠ fmt (name self) ->
   db_dict_json (update_db_dict self t last_date w).2 !! other
   = db_dict_json w !! other)
  /\ (other ≠ fmt (UploadSoccerDB.name uploader) ->
      db_dict_json (UploadSoccerDB.update_db_dict uploader t w).2 !! other
      = db_dict_json w !! other)
  /\ csv_files (update_db_dict self t last_date w).2 = csv_files w
  /\ csv_files (UploadSoccerDB.update_db_dict uploader t w).2 = csv_files w
  /\ database (update_db_dict self t last_date w).2 = database w
  /\ database (UploadSoccerDB.update_db_dict uploader t w).2 = database w.
Proof.
  unfold update_db_dict, UploadSoccerDB.update_db_dict, try_except, load_db_dict,
    gets, lift, the_primary_key, mbind, M_bind.
  destruct (db_dict_json w !! fmt (name self)) as [entry|];
    destruct (primary_key self) as [k|];
    destruct (getcol t (UploadSoccerDB.primary_key uploader)) as [ks|];
    destruct (db_dict_json w !! fmt (UploadSoccerDB.name uploader)) as [entry'|];
    cbn;
    try destruct (getcol t k) as [ks'|]; cbn;
    repeat split; intros; try done; by rewrite lookup_insert_ne.
Qed.

Lemma update_db_dict_frame_witness :
  let self := Sample.player_matches_cleaner [] [] in
  let w := Sample.after_clean in
  (db_dict_json (update_db_dict self Sample.batch "2024-07-01" w).2 !! "keeper_matches"
   = db_dict_json w !! "keeper_matches")
  /\ (db_dict_json (UploadSoccerDB.update_db_dict Sample.keeper_uploader
                      Sample.batch w).2 !! "player_matches"
      = db_dict_json w !! "player_matches").
Proof.
  cbv zeta.
  destruct (update_db_dict_frame (Sample.player_matches_cleaner [] [])
              Sample.keeper_uploader Sample.batch "2024-07-01" "keeper_matches"
              Sample.after_clean) as (H1 & _).
  destruct (update_db_dict_frame (Sample.player_matches_cleaner [] [])
              Sample.keeper_uploader Sample.batch "2024-07-01" "player_matches"
              Sample.after_clean) as (_ & H2 & _).
  split; [apply H1 | apply H2]; discriminate.
Defined.

End CleanerMore.

(** ** More on the uploader: the constraint check, the chunks, re-runs *)

Module UploadMore.
Import PyStr UploadSoccerDB UpsertFacts UploadFacts UpsertMore.
#[local] Open Scope list_scope.

(** No one-character string contains "INT". *)
Lemma contains_int_char (ch : ascii) :
  contains "INT" (String ch EmptyString) = false.
Proof.
  cbn [contains String.prefix].
  destruct (ascii_dec "I"%char ch); reflexivity.
Qed.

Lemma int_lines_of_chars (query : string) :
  filter (fun l => contains "INT" l = true) (chars query) = [].
Proof.
  induction query as [|ch query IH]; [reflexivity|].
  cbn [chars]. rewrite filter_cons_False; [exact IH|].
  by rewrite contains_int_char.
Qed.



Section Gate.
Variable to_int64 : Cell -> Cell.

(** X7: [get_int_columns_from_query] walks the characters of the joined
    query, none of which contains "INT": it finds no integer column for
    any query, so [convert_to_int] converts nothing. *)
Theorem get_int_columns_from_query_empty (self : Uploader) (data : DataFrame) :
  get_int_columns_from_query self
  = match create_table_query self with
    | Some _ => Ok []
    | None => Raise TypeError
    end
  /\ forall cols, get_int_columns_from_query self = Ok cols ->
                  convert_to_int to_int64 data cols = Ok data.
Proof.
  unfold get_int_columns_from_query.
  destruct (create_table_query self) as [q|]; [|by split].
  rewrite int_lines_of_chars. split; [done|]. by intros cols [= <-].
Qed.




End Gate.


(** *** Chunks *)

Lemma chunks_spec (fuel : nat) (rs : list Row) :
  (length rs <= fuel)%nat ->
  List.concat (chunks fuel rs) = rs
  /\ Forall (fun c : list Row => c ≠ [] /\ (length c <= 5000)%nat) (chunks fuel rs).
Proof.
  revert rs. induction fuel as [|fuel IH]; intros rs Hlen.
  - destruct rs; [by split | cbn in Hlen; lia].
  - destruct rs as [|r rs]; [by split|].
    cbn [chunks].
    assert (Hcs : chunk_size = S 4999) by reflexivity.
    destruct (IH (drop chunk_size (r :: rs))) as [Hc Hf].
    { rewrite length_drop, Hcs. cbn [length] in *. lia. }
    split.
    + cbn [List.concat]. rewrite Hc. apply take_drop.
    + constructor; [|exact Hf]. split.
      * rewrite Hcs. cbn [take]. discriminate.
      * rewrite length_take, Hcs. lia.
Qed.

(** X10: [upload_to_db] cuts the frame into chunks of at most 5000 rows,
    none of them empty, that together are the rows of the frame, each
    once and in order. *)
Theorem upload_chunks_partition (rs : list Row) :
  List.concat (chunks (length rs) rs) = rs
  /\ Forall (fun c : list Row => c ≠ [] /\ (length c <= 5000)%nat)
            (chunks (length rs) rs).
Proof. by apply chunks_spec. Qed.

(** *** A store that appends *)


Section Append.
Variable to_int64 : Cell -> Cell.
Variable to_sql : string -> DataFrame -> gmap string DataFrame ->
                  Result (gmap string DataFrame).

(** [to_sql(..., if_exists='append')] on a table the database has:
    the rows of the chunk go after the rows of the table. *)
Hypothesis to_sql_appends :
  forall (n : string) (chunk : DataFrame) (db : gmap string DataFrame) (t : DataFrame),
    db !! n = Some t ->
    to_sql n chunk db = Ok (<[n := mkDF (columns t) (rows t ++ rows chunk)]> db).

Lemma for_each_appends (n : string) (cols : list string) (l : list (list Row))
    (t : DataFrame) (w : World) :
  database w !! n = Some t ->
  for_each l
    (fun chunk w =>
       match to_sql n (mkDF cols chunk) (database w) with
       | Ok db => (Ok tt, set_database db w)
       | Raise e => (Raise e, w)
       end) w
  = (Ok tt, set_database
              (<[n := mkDF (columns t) (rows t ++ List.concat l)]> (database w)) w).
Proof.
  revert t w. induction l as [|chunk l IH]; intros t w Ht.
  - cbn [for_each List.concat]. rewrite app_nil_r.
    replace (mkDF (columns t) (rows t)) with t by (by destruct t).
    rewrite (insert_id _ _ _ Ht). by destruct w.
  - cbn [for_each]. rewrite bind_run, (to_sql_appends _ _ _ _ Ht).
    rewrite (IH (mkDF (columns t) (rows t ++ chunk))).
    + cbn. by rewrite insert_insert_eq, <- app_assoc.
    + cbn. by rewrite lookup_insert_eq.
Qed.

Lemma upload_to_db_run (self : Uploader) (data t : DataFrame) (w : World) :
  database w !! fmt (name self) = Some t ->
  upload_to_db to_sql self data w
  = (Ok tt,
     set_database (<[fmt (name self) := mkDF (columns t) (rows t ++ rows data)]>
                     (database w)) w).
Proof.
  intros Ht. unfold upload_to_db, try_except.
  rewrite (for_each_appends _ _ _ t w Ht).
  by destruct (chunks_spec (length (rows data)) (rows data)) as [-> _].
Qed.

(** X11: with a store that appends, [upload_to_db] leaves in the table
    its former rows followed by every row of the frame, each once and
    in the frame's order, whatever the number of chunks; it logs
    nothing and touches no other table, file or index entry. *)
Theorem upload_to_db_appends_all_rows (self : Uploader) (data t : DataFrame)
    (w : World) :
  database w !! fmt (name self) = Some t ->
  upload_to_db to_sql self data w
  = (Ok tt,
     set_database (<[fmt (name self) := mkDF (columns t) (rows t ++ rows data)]>
                     (database w)) w).
Proof. apply upload_to_db_run. Qed.






End Append.

Lemma store_appends_appends (n : string) (chunk : DataFrame)
    (db : gmap string DataFrame) (t : DataFrame) :
  db !! n = Some t ->
  Sample.store_appends n chunk db
  = Ok (<[n := mkDF (columns t) (rows t ++ rows chunk)]> db).
Proof. intros H. unfold Sample.store_appends. by rewrite H. Qed.


Lemma upload_to_db_appends_all_rows_witness :
  upload_to_db Sample.store_appends Sample.keeper_uploader Sample.batch
    Sample.after_clean
  = (Ok tt,
     set_database
       (<["keeper_matches" :=
            mkDF (columns Sample.production)
                 (rows Sample.production ++ rows Sample.batch)]>
          (database Sample.after_clean)) Sample.after_clean).
Proof.
  apply (upload_to_db_appends_all_rows Sample.store_appends store_appends_appends
           Sample.keeper_uploader Sample.batch Sample.production Sample.after_clean).
  vm_compute. reflexivity.
Defined.


End UploadMore.

(** ** More on composite keys *)

Module KeyMore.
Import KeyDeriver KeyDeriverFacts.

Lemma append_inv_head (a s t : string) : a ++ s = a ++ t -> s = t.
Proof.
  induction a as [|c a IH]; simpl; [done|]. intros [= H]. by apply IH.
Qed.

(** X13: a composite key identifies its two constituents when the first
    identifiers have the same length or hold no "_": two pairs with the
    same key are the same pair.  (Without the condition they need not
    be: "x", "x_x" and "x_x", "x" share the key "x_x_x".) *)
Theorem derive_key_injective (a b a' b' : string) :
  String.length a = String.length a'
  \/ (has_char "_" a = false /\ has_char "_" a' = false) ->
  derive_key (Some a) (Some b) = derive_key (Some a') (Some b') ->
  a = a' /\ b = b'.
Proof.
  intros Hcond Heq. unfold derive_key in Heq. injection Heq as Heq.
  assert (Ha : a = a').
  { destruct Hcond as [Hlen | [Ha Ha']].
    - exact (append_same_length_inj _ _ _ _ Hlen Heq).
    - exact (append_sep_inj "_" _ _ _ _ Ha Ha' Heq). }
  subst a'. split; [reflexivity|].
  apply append_inv_head in Heq. by injection Heq.
Qed.

Lemma derive_key_injective_witness : "p1a2b3c4" = "p1a2b3c4" /\ "m9z8y7x6" = "m9z8y7x6".
Proof.
  apply (derive_key_injective "p1a2b3c4" "m9z8y7x6" "p1a2b3c4" "m9z8y7x6").
  - left. reflexivity.
  - reflexivity.
Defined.

End KeyMore.

(** ** More on the orchestrator: errors and resuming *)

Module WorkflowMore.
Import Workflow LogFacts WorkflowFacts.
#[local] Open Scope list_scope.


Section Orchestrator.
Variable clean_data : FbrefClean.Cleaner -> option string -> M (option DataFrame).
Variable to_int64 : Cell -> Cell.
Variable to_sql : string -> DataFrame -> gmap string DataFrame ->
                  Result (gmap string DataFrame).
Variables update_ls update_tls update_teams update_ptls update_players
          update_matches update_team_matches update_player_matches : Func.

#[local] Abbreviation the_steps :=
  (steps clean_data to_int64 to_sql update_ls update_tls update_teams
         update_ptls update_players update_matches update_team_matches
         update_player_matches).
#[local] Abbreviation the_workflow :=
  (run_workflow clean_data to_int64 to_sql update_ls update_tls update_teams
         update_ptls update_players update_matches update_team_matches
         update_player_matches).


Hypothesis clean_data_quiet : forall self u, keeps_started (clean_data self u).
Hypothesis update_ls_quiet : forall a k, keeps_started (update_ls a k).
Hypothesis update_tls_quiet : forall a k, keeps_started (update_tls a k).
Hypothesis update_teams_quiet : forall a k, keeps_started (update_teams a k).
Hypothesis update_ptls_quiet : forall a k, keeps_started (update_ptls a k).
Hypothesis update_players_quiet : forall a k, keeps_started (update_players a k).
Hypothesis update_matches_quiet : forall a k, keeps_started (update_matches a k).
Hypothesis update_team_matches_quiet :
  forall a k, keeps_started (update_team_matches a k).
Hypothesis update_player_matches_quiet :
  forall a k, keeps_started (update_player_matches a k).


End Orchestrator.


End WorkflowMore.

(** ** The foreign-key report of the cleaner *)

Module CheckDataFacts.
Import FbrefClean UploadFacts.

Section Report.
Variable py_in : Cell -> list Cell -> bool.

Lemma check_tables_keeps_world (self : Cleaner) (update_id : string)
    (data : DataFrame) (foreign_keys : list string) (i : nat)
    (other_tables : list string) (unmatched_data : Unmatched) (w : World) :
  (check_tables py_in self update_id data foreign_keys i other_tables
     unmatched_data w).2 = w.
Proof.
  revert i unmatched_data.
  induction other_tables as [|table rest IH]; intros i unmatched_data;
    [reflexivity|].
  cbn [check_tables]. unfold lift, read_csv. rewrite !bind_run.
  destruct (data_dict self !! table) as [df_table|]; [|reflexivity].
  rewrite !bind_run. destruct (csv_files w !! _) as [df_updated|]; [|reflexivity].
  rewrite !bind_run. destruct (foreign_keys !! i) as [key|]; [|reflexivity].
  rewrite !bind_run. destruct (getcol data key) as [xs|]; [|reflexivity].
  rewrite !bind_run.
  destruct (not_in_column py_in xs df_table key); [|reflexivity].
  rewrite !bind_run.
  destruct (not_in_column py_in xs df_updated key); [|reflexivity].
  apply IH.
Qed.

(** X16: [check_data_vs_other_table] never returns its report: every
    call ends in an exception (TypeError from the call of [save_data]
    with an argument short, when nothing raised before), and no file,
    index entry, table or log line is written. *)
Theorem check_data_vs_other_table_always_raises (self : Cleaner)
    (update_id : string) (other_tables foreign_keys : list string) (w : World) :
  (exists e, check_data_vs_other_table py_in self update_id other_tables
               foreign_keys w = (Raise e, w))
  /\ (forall data,
        csv_files w !! ("data/fbref/" +:+ fmt (name self) +:+ "_" +:+ update_id
                        +:+ ".csv") = Some data ->
        check_data_vs_other_table py_in self update_id [] foreign_keys w
        = (Raise TypeError, w)).
Proof.
  split.
  - unfold check_data_vs_other_table, read_csv. rewrite bind_run.
    destruct (csv_files w !! _) as [data|]; [|eauto].
    rewrite bind_run.
    pose proof (check_tables_keeps_world self update_id data foreign_keys 0
                  other_tables ∅ w) as Hw.
    destruct (check_tables _ _ _ _ _ _ _ _ w) as [[u|e] w']; cbn in Hw; subst w';
      eauto.
  - intros data Hfile. unfold check_data_vs_other_table, read_csv.
    rewrite bind_run, Hfile. reflexivity.
Qed.

End Report.

Lemma check_data_vs_other_table_always_raises_witness :
  (exists e, check_data_vs_other_table (fun x ys => bool_decide (x ∈ ys))
               (Sample.player_matches_cleaner [] []) "2024_07_01_run1"
               ["matches"] ["match_id"] Sample.temp_world
             = (Raise e, Sample.temp_world))
  /\ (forall data,
        csv_files Sample.temp_world
          !! ("data/fbref/"
              +:+ fmt (name (Sample.player_matches_cleaner [] []))
              +:+ "_" +:+ "2024_07_01_run1" +:+ ".csv") = Some data ->
        check_data_vs_other_table (fun x ys => bool_decide (x ∈ ys))
          (Sample.player_matches_cleaner [] []) "2024_07_01_run1" []
          ["match_id"] Sample.temp_world
        = (Raise TypeError, Sample.temp_world)).
Proof.
  apply (check_data_vs_other_table_always_raises (fun x ys => bool_decide (x ∈ ys))
           (Sample.player_matches_cleaner [] []) "2024_07_01_run1"
           ["matches"] ["match_id"] Sample.temp_world).
Defined.

End CheckDataFacts.

(** ** More on the reconciliation: rows, fills, and where the loop stops *)

Module ReconcileMore.
Import FbrefClean FbrefCleanMatchStats UpsertFacts ReconcileFacts.
#[local] Open Scope list_scope.



Section Rows.
Variable merge_outer : string -> DataFrame -> DataFrame -> Result DataFrame.
Variable read_back : Table -> DataFrame.



End Rows.


(** *** One turn of the fill loop *)

Lemma set_cell_lookup (col : string) (x : Cell) (r : Row) :
  set_cell col x r !! col = x.
Proof.
  destruct x; simpl; [apply lookup_insert_eq | apply lookup_delete_eq].
Qed.

Lemma set_cell_lookup_ne (col c : string) (x : Cell) (r : Row) :
  c ≠ col -> set_cell col x r !! c = r !! c.
Proof.
  intros Hne. destruct x; simpl;
    [by rewrite lookup_insert_ne | by rewrite lookup_delete_ne].
Qed.

(** X18: one turn of the fill loop, when it does not raise.  A row of
    the primary frame whose cell under the review column is null and
    whose label the secondary frame has gets the secondary frame's
    cell for that label; every other cell of the primary frame is
    left as it was; and the review column leaves the secondary frame. *)
Theorem fill_step_takes_secondary_value (col : string)
    (p d p' d' : IndexedFrame) (i : nat) (lab : Cell) (r : Row) :
  fill_step col (p, d) = Ok (p', d') ->
  irows p !! i = Some (lab, r) ->
  (col ∉ icolumns d')
  /\ exists r', irows p' !! i = Some (lab, r')
       /\ (forall c, c ≠ col -> r' !! c = r !! c)
       /\ (r !! col = None -> lab ∈ map fst (irows d) ->
           r' !! col = loc d lab col)
       /\ (~ (r !! col = None ∧ lab ∈ map fst (irows d)) ->
           r' !! col = r !! col).
Proof.
  intros H Hi. unfold fill_step in H.
  destruct (decide (col ∈ icolumns p)); [|discriminate].
  cbv zeta in H. revert H.
  assert (Hidx : bool_decide (r !! col = None)
                 && bool_decide (lab ∈ map fst (irows d)) = true
                 <-> r !! col = None ∧ lab ∈ map fst (irows d)).
  { rewrite andb_true_iff, !bool_decide_eq_true. done. }
  assert (Hdrop : forall rest, drop_column col d = Ok rest -> col ∉ icolumns rest).
  { intros rest. unfold drop_column.
    destruct (decide (col ∈ icolumns d)); [|intros Hr; discriminate Hr].
    intros [= <-]. cbn [icolumns]. rewrite list_elem_of_filter. tauto. }
  destruct (decide (0 < length _)%nat) as [Hpos|Hzero].
  - destruct (decide (col ∈ icolumns d)); [|discriminate].
    cbn [mbind result_bind].
    destruct (drop_column col d) as [rest|] eqn:E; [|discriminate].
    cbn [mbind result_bind]. intros [= <- <-].
    split; [by apply Hdrop|]. cbn [irows].
    change (map ?f ?l) with (f <$> l). rewrite list_lookup_fmap, Hi.
    cbn [fmap option_fmap option_map fst snd].
    destruct (bool_decide (r !! col = None)
              && bool_decide (lab ∈ map fst (irows d))) eqn:Ei.
    + eexists. split; [reflexivity|]. split; [|split].
      * intros c Hc. by apply set_cell_lookup_ne.
      * intros _ _. apply set_cell_lookup.
      * intros Hn. exfalso. apply Hn. by apply Hidx.
    + exists r. split; [reflexivity|]. split; [done|]. split; [|done].
      intros Hn Hl. assert (Hc : false = true) by (by apply Hidx).
      discriminate Hc.
  - cbn [mbind result_bind].
    destruct (drop_column col d) as [rest|] eqn:E; [|discriminate].
    cbn [mbind result_bind]. intros [= <- <-].
    split; [by apply Hdrop|].
    exists r. split; [exact Hi|]. split; [done|]. split; [|done].
    intros Hn Hl. exfalso. assert (Hc := proj2 Hidx (conj Hn Hl)).
    apply Hzero.
    match goal with
    | |- (0 < length (filter ?P (irows p)))%nat =>
        assert (Hin : (lab, r) ∈ filter P (irows p));
        [apply list_elem_of_filter; split;
           [exact Hc | by eapply list_elem_of_lookup_2]
        |destruct (filter P (irows p)); [inversion Hin | cbn; lia]]
    end.
Qed.

Lemma fill_step_takes_secondary_value_witness :
  let p := mkIF "k" ["a"] [(Some (VStr "x"), (∅ : Row))] in
  let d := mkIF "k" ["a"] [(Some (VStr "x"), <["a" := VInt 7]> (∅ : Row))] in
  let p' := mkIF "k" ["a"] [(Some (VStr "x"), <["a" := VInt 7]> (∅ : Row))] in
  let d' := mkIF "k" [] [(Some (VStr "x"), (∅ : Row))] in
  ("a" ∉ icolumns d')
  /\ exists r', irows p' !! 0%nat = Some (Some (VStr "x"), r')
       /\ (forall c, c ≠ "a" -> r' !! c = (∅ : Row) !! c)
       /\ ((∅ : Row) !! "a" = None -> Some (VStr "x") ∈ map fst (irows d) ->
           r' !! "a" = loc d (Some (VStr "x")) "a")
       /\ (~ ((∅ : Row) !! "a" = None ∧ Some (VStr "x") ∈ map fst (irows d)) ->
           r' !! "a" = (∅ : Row) !! "a").
Proof.
  cbv zeta.
  apply (fill_step_takes_secondary_value "a"
           (mkIF "k" ["a"] [(Some (VStr "x"), (∅ : Row))])
           (mkIF "k" ["a"] [(Some (VStr "x"), <["a" := VInt 7]> (∅ : Row))])
           (mkIF "k" ["a"] [(Some (VStr "x"), <["a" := VInt 7]> (∅ : Row))])
           (mkIF "k" [] [(Some (VStr "x"), (∅ : Row))]) 0
           (Some (VStr "x")) ∅).
  - vm_compute. reflexivity.
  - reflexivity.
Defined.

(** *** Where the loop stops *)

Lemma fill_step_missing_column (col : string) (st : IndexedFrame * IndexedFrame) :
  col ∉ icolumns (st.1) \/ col ∉ icolumns (st.2) ->
  exists e, fill_step col st = Raise e.
Proof.
  destruct st as [p d]. cbn [fst snd]. intros Hmiss. unfold fill_step.
  destruct (decide (col ∈ icolumns p)) as [Hp|]; [|eauto].
  destruct Hmiss as [Hn|Hn]; [done|].
  assert (Hdrop : drop_column col d = Raise (KeyError col)).
  { unfold drop_column. by rewrite decide_False. }
  destruct (decide (0 < length _)%nat).
  - rewrite decide_False by done. cbn. eauto.
  - cbn [mbind result_bind]. rewrite Hdrop. cbn. eauto.
Qed.

Lemma fill_review_cols_stops (cols1 : list string) (col : string)
    (cols2 : list string) (st : IndexedFrame * IndexedFrame) (e : Exn) :
  fill_step col (fill_review_cols cols1 st) = Raise e ->
  fill_review_cols (cols1 ++ col :: cols2) st = fill_review_cols cols1 st.
Proof.
  revert st. induction cols1 as [|c cols1 IH]; intros st He.
  - cbn [app fill_review_cols] in *. by rewrite He.
  - cbn [app fill_review_cols] in *.
    destruct (fill_step c st) as [st'|]; [by apply IH | reflexivity].
Qed.

(** X19: the loop over the review columns stops for good at the first
    review column that the primary or the secondary frame does not
    have at that point: what the earlier turns did is kept, and no
    later review column is reconciled, whatever it is. *)
Theorem fill_review_cols_stops_at_missing_column (cols1 : list string)
    (col : string) (cols2 : list string) (st : IndexedFrame * IndexedFrame) :
  col ∉ icolumns (fill_review_cols cols1 st).1
  \/ col ∉ icolumns (fill_review_cols cols1 st).2 ->
  fill_review_cols (cols1 ++ col :: cols2) st = fill_review_cols cols1 st.
Proof.
  intros Hmiss. destruct (fill_step_missing_column col _ Hmiss) as [e He].
  by eapply fill_review_cols_stops.
Qed.

Lemma fill_review_cols_stops_at_missing_column_witness :
  let st := (mkIF "k" ["a"] [(Some (VStr "x"), (∅ : Row))],
             mkIF "k" ["a"] [(Some (VStr "x"), <["a" := VInt 7]> (∅ : Row))]) in
  fill_review_cols ([] ++ "ghost" :: ["a"]) st = fill_review_cols [] st.
Proof.
  cbv zeta.
  apply (fill_review_cols_stops_at_missing_column [] "ghost" ["a"]
           (mkIF "k" ["a"] [(Some (VStr "x"), (∅ : Row))],
            mkIF "k" ["a"] [(Some (VStr "x"), <["a" := VInt 7]> (∅ : Row))])).
  left. apply (bool_decide_unpack _). vm_compute. exact I.
Defined.

End ReconcileMore.

(** ** Whole runs of the cleaner, prompt by prompt *)

Module CleanerRuns.
Import FbrefClean UpsertFacts UploadFacts UpsertMore CleanerMore.
#[local] Open Scope list_scope.

(** The batch file and the backup file of an entity. *)
Definition batch_path (self : Cleaner) (update_id : option string) : string :=
  "data/fbref/" +:+ fmt (name self) +:+ "/" +:+ fmt (name self) +:+ "_"
  +:+ fmt update_id +:+ ".csv".
Definition backup_path (self : Cleaner) (update_id : option string) : string :=
  "data/fbref/" +:+ fmt (name self) +:+ "/" +:+ fmt (name self) +:+ "_backup_"
  +:+ fmt update_id +:+ ".csv".

(** The world after [self.save_data(clean_data, file_path)]. *)
Definition saved (self : Cleaner) (update_id : option string)
    (d : option DataFrame) (w : World) : World :=
  match d with
  | Some df => set_csv_files (<[batch_path self update_id := df]> (csv_files w)) w
  | None => w
  end.

Lemma string_length_app (a b : string) :
  String.length (a +:+ b) = (String.length a + String.length b)%nat.
Proof. induction a as [|c a IH]; simpl; [done | by rewrite IH]. Qed.

Lemma string_app_inv_head (a s t : string) : a +:+ s = a +:+ t -> s = t.
Proof. induction a as [|c a IH]; simpl; [done|]. intros [= H]. by apply IH. Qed.

Lemma backup_path_not_batch (self : Cleaner) (u : option string) :
  backup_path self u ≠ batch_path self u.
Proof.
  unfold backup_path, batch_path. intros H.
  apply (string_app_inv_head "data/fbref/") in H.
  apply string_app_inv_head in H.
  apply (string_app_inv_head "/") in H.
  apply string_app_inv_head in H.
  apply (f_equal String.length) in H.
  rewrite !string_length_app in H. cbn in H. lia.
Qed.

Lemma backup_path_not_production (self : Cleaner) (u : option string) :
  backup_path self u ≠ production_path self.
Proof. apply fbref_path_not_production. Qed.

Lemma batch_path_not_production (self : Cleaner) (u : option string) :
  batch_path self u ≠ production_path self.
Proof. apply fbref_path_not_production. Qed.

Ltac paths :=
  first [ apply backup_path_not_batch
        | apply not_eq_sym, backup_path_not_batch
        | apply backup_path_not_production
        | apply not_eq_sym, backup_path_not_production
        | apply batch_path_not_production
        | apply not_eq_sym, batch_path_not_production ].

Lemma input_run (w : World) (a : string) (rest : list string) :
  stdin w = a :: rest -> input w = (Ok a, set_stdin rest w).
Proof. intros H. unfold input. by rewrite H. Qed.

Lemma update_table_ok (self : Cleaner) (d : option DataFrame) (b : bool)
    (k : string) (nt : DataFrame) (w : World) :
  primary_key self = Some k ->
  update_table_new_table k (db_table self) d b = Ok nt ->
  update_table self d b w
  = (Ok nt, set_csv_files (<[production_path self := nt]> (csv_files w)) w).
Proof.
  intros Hk Hnt.
  unfold update_table, the_primary_key, save_data, to_csv, modify, lift,
    mbind, M_bind, mret, M_ret.
  by rewrite Hk, Hnt.
Qed.

Lemma not_not_yes (a : string) :
  lower a = "yes" -> bool_decide (lower a ≠ "yes") = false.
Proof. intros H. apply bool_decide_eq_false_2. intros Hn. by apply Hn. Qed.

Section Runs.
Variable clean_data : Cleaner -> option string -> M (option DataFrame).

(** A run in which [clean_data] returns, the operator answers yes to
    both prompts of [clean_save_update_data], and the merge succeeds. *)
Lemma clean_save_update_data_run (self : Cleaner) (last_date : string)
    (u : option string) (w w1 w3 : World) (d : option DataFrame)
    (a1 a3 : string) (rest1 rest3 : list string) (k : string) (nt : DataFrame) :
  clean_data self u w = (Ok d, w1) ->
  stdin w1 = a1 :: rest1 -> lower a1 = "yes" ->
  backup_table self u (set_stdin rest1 (saved self u d w1)) = (Ok tt, w3) ->
  stdin w3 = a3 :: rest3 -> lower a3 = "yes" ->
  primary_key self = Some k ->
  update_table_new_table k (db_table self) d false = Ok nt ->
  FbrefClean.clean_save_update_data clean_data self last_date u false w
  = (Ok (Some nt),
     (update_db_dict self nt last_date
        (set_csv_files (<[production_path self := nt]> (csv_files w3))
                       (set_stdin rest3 w3))).2).
Proof.
  intros Hc Hs1 Ha1 Hb Hs3 Ha3 Hk Hnt.
  assert (Hkn : k ∈ columns nt) by (apply new_table_shape in Hnt; tauto).
  unfold FbrefClean.clean_save_update_data, try_except.
  rewrite bind_run, bind_run, Hc. cbv beta iota.
  rewrite bind_run.
  assert (Hsave : exists b, save_data d (batch_path self u) w1
                            = (Ok b, saved self u d w1)).
  { unfold save_data, saved. destruct d as [df|]; [exists true | exists false];
      reflexivity. }
  destruct Hsave as [b Hsave]. unfold batch_path in Hsave.
  rewrite Hsave. cbv beta iota. cbn [mret M_ret]. cbv beta iota.
  rewrite bind_run, (input_run _ a1 rest1)
    by (unfold saved; destruct d; exact Hs1).
  cbv beta iota. rewrite (not_not_yes a1 Ha1).
  rewrite bind_run, Hb. cbv beta iota.
  rewrite bind_run, (input_run w3 a3 rest3 Hs3). cbv beta iota.
  rewrite (not_not_yes a3 Ha3).
  rewrite bind_run. cbn [mret M_ret]. cbv beta iota.
  rewrite bind_run, (update_table_ok self d false k nt _ Hk Hnt). cbv beta iota.
  change (csv_files w3) with (csv_files (set_stdin rest3 w3)).
  rewrite bind_run, (update_db_dict_run self nt last_date k _ Hk Hkn).
  reflexivity.
Qed.

Lemma backup_table_fresh (self : Cleaner) (u : option string) (w : World) :
  csv_files w !! backup_path self u = None ->
  backup_table self u w
  = (Ok tt, set_csv_files (<[backup_path self u := db_table self]> (csv_files w)) w).
Proof.
  intros H. unfold backup_path in H.
  unfold backup_table, gets, save_data, to_csv, modify, try_except,
    mbind, M_bind, mret, M_ret.
  by rewrite H.
Qed.

Lemma backup_table_declined (self : Cleaner) (u : option string) (w : World)
    (old : DataFrame) (a : string) (rest : list string) :
  csv_files w !! backup_path self u = Some old ->
  stdin w = a :: rest -> lower a ≠ "yes" ->
  backup_table self u w = (Ok tt, set_stdin rest w).
Proof.
  intros H Hs Ha. unfold backup_path in H.
  unfold backup_table, gets, input, mbind, M_bind, mret, M_ret.
  rewrite H, Hs. by rewrite bool_decide_eq_false_2.
Qed.

(** X20: a cleaning that failed still stamps the index.  When the
    subclass' [clean_data] caught its own error and returned nothing,
    and the operator answers yes to both prompts, the call returns the
    production table (deduplicated, with no new key), writes no batch
    file, and rewrites the date of the entity's index entry to the
    batch date. *)
Theorem failed_clean_still_stamps_index (self : Cleaner) (last_date : string)
    (u : option string) (w w1 : World) (a1 a3 : string) (rest : list string)
    (k : string) (entry : IndexEntry) :
  clean_data self u w = (Ok None, w1) ->
  stdin w1 = a1 :: a3 :: rest -> lower a1 = "yes" -> lower a3 = "yes" ->
  csv_files w1 !! backup_path self u = None ->
  primary_key self = Some k -> k ∈ columns (db_table self) ->
  db_dict_json w1 !! fmt (name self) = Some entry ->
  let r := FbrefClean.clean_save_update_data clean_data self last_date u false w in
  exists nt,
    r.1 = Ok (Some nt)
    /\ (forall v, Some v ∈ keys k (rows nt) <-> Some v ∈ keys k (rows (db_table self)))
    /\ db_dict_json (r.2) !! fmt (name self)
       = Some (mkEntry last_date (keys k (rows nt)))
    /\ csv_files (r.2) !! batch_path self u = csv_files w1 !! batch_path self u.
Proof.
  intros Hc Hs Ha1 Ha3 Hnb Hk HkT He. cbv zeta.
  pose proof (new_table_keep k (db_table self) None) as Hnt.
  cbn [concat columns] in Hnt. rewrite decide_True in Hnt by done.
  match type of Hnt with _ = Ok ?x => set (nt := x) in * end.
  exists nt.
  rewrite (clean_save_update_data_run self last_date u w w1
             (set_csv_files (<[backup_path self u := db_table self]> (csv_files w1))
                            (set_stdin (a3 :: rest) w1))
             None a1 a3 (a3 :: rest) rest k nt Hc Hs Ha1
             (backup_table_fresh self u (set_stdin (a3 :: rest) w1) Hnb)
             eq_refl Ha3 Hk Hnt).
  assert (HkN : k ∈ columns nt) by done.
  rewrite (update_db_dict_run self nt last_date k _ Hk HkN).
  cbn [fst snd db_dict_json set_csv_files set_stdin csv_files]. rewrite He.
  split; [done|]. split; [|split].
  - intros v. subst nt. cbn [rows].
    rewrite first_rows_keys, keys_notna, keys_restrict. tauto.
  - cbn. apply lookup_insert_eq.
  - cbn. rewrite !lookup_insert_ne; [done|..]; paths.
Qed.

(** X21: declining to overwrite an existing backup does not stop the
    update.  When the operator answers yes to proceed, anything but yes
    to overwriting the backup, and yes to updating, the old backup file
    is left as it was and the production file is replaced by the merged
    table all the same. *)
Theorem declined_backup_still_updates (self : Cleaner) (last_date : string)
    (u : option string) (w w1 : World) (d old nt : DataFrame)
    (a1 a2 a3 : string) (rest : list string) (k : string) :
  clean_data self u w = (Ok (Some d), w1) ->
  stdin w1 = a1 :: a2 :: a3 :: rest ->
  lower a1 = "yes" -> lower a2 ≠ "yes" -> lower a3 = "yes" ->
  csv_files w1 !! backup_path self u = Some old ->
  primary_key self = Some k ->
  update_table_new_table k (db_table self) (Some d) false = Ok nt ->
  let r := FbrefClean.clean_save_update_data clean_data self last_date u false w in
  r.1 = Ok (Some nt)
  /\ csv_files (r.2) !! backup_path self u = Some old
  /\ csv_files (r.2) !! production_path self = Some nt
  /\ csv_files (r.2) !! batch_path self u = Some d.
Proof.
  intros Hc Hs Ha1 Ha2 Ha3 Hold Hk Hnt. cbv zeta.
  assert (Hb : backup_table self u
                 (set_stdin (a2 :: a3 :: rest) (saved self u (Some d) w1))
               = (Ok tt, set_stdin (a3 :: rest)
                           (set_stdin (a2 :: a3 :: rest) (saved self u (Some d) w1)))).
  { apply (backup_table_declined self u _ old a2 (a3 :: rest)); [|done..].
    cbn. rewrite lookup_insert_ne; [done|]. paths. }
  rewrite (clean_save_update_data_run self last_date u w w1 _
             (Some d) a1 a3 (a2 :: a3 :: rest) rest k nt Hc Hs Ha1 Hb eq_refl Ha3
             Hk Hnt).
  assert (HkN : k ∈ columns nt) by (apply new_table_shape in Hnt; tauto).
  rewrite (update_db_dict_run self nt last_date k _ Hk HkN).
  cbn [fst snd]. split; [done|].
  assert (Hcsv : forall W : World,
            csv_files
              match db_dict_json W !! fmt (name self) with
              | Some _ =>
                  set_db_dict (<[fmt (name self) := mkEntry last_date (keys k (rows nt))]>
                                 (db_dict_json W)) W
              | None => add_log ERROR (CouldNotUpdateDbDict (KeyError (fmt (name self)))) W
              end = csv_files W).
  { intros W. by destruct (db_dict_json W !! fmt (name self)). }
  rewrite Hcsv. cbn [csv_files set_csv_files set_stdin saved].
  split; [|split].
  - rewrite !lookup_insert_ne; [done|..]; paths.
  - apply lookup_insert_eq.
  - rewrite lookup_insert_ne by paths. apply lookup_insert_eq.
Qed.

End Runs.

(** The keeper-matches cleaner over the sample production table. *)
Definition keeper_cleaner : Cleaner :=
  mkCleaner (Some "keeper_matches") ∅ Sample.production (Some "keeper_match") [] [].

(** The sample world with a backup file already there. *)
Definition world_with_backup (answers : list string) : World :=
  set_csv_files
    (<["data/fbref/keeper_matches/keeper_matches_backup_2024_07_01_run1.csv"
       := Sample.empty_table]> (csv_files (Sample.world answers)))
    (Sample.world answers).

Lemma failed_clean_still_stamps_index_witness :
  let self := keeper_cleaner in
  let u := Some "2024_07_01_run1" in
  let w := Sample.world ["yes"; "yes"] in
  let r := FbrefClean.clean_save_update_data (fun _ _ => mret None) self
             "2024-07-01" u false w in
  exists nt,
    r.1 = Ok (Some nt)
    /\ (forall v, Some v ∈ keys "keeper_match" (rows nt)
                  <-> Some v ∈ keys "keeper_match" (rows (db_table self)))
    /\ db_dict_json (r.2) !! fmt (name self)
       = Some (mkEntry "2024-07-01" (keys "keeper_match" (rows nt)))
    /\ csv_files (r.2) !! batch_path self u = csv_files w !! batch_path self u.
Proof.
  cbv zeta.
  apply (failed_clean_still_stamps_index (fun _ _ => mret None) keeper_cleaner
           "2024-07-01" (Some "2024_07_01_run1") (Sample.world ["yes"; "yes"])
           (Sample.world ["yes"; "yes"]) "yes" "yes" [] "keeper_match"
           (mkEntry "2024-04-30" [Some (VStr "A")])).
  - reflexivity.
  - reflexivity.
  - reflexivity.
  - reflexivity.
  - vm_compute. reflexivity.
  - reflexivity.
  - apply (bool_decide_unpack _). vm_compute. exact I.
  - vm_compute. reflexivity.
Defined.

Lemma declined_backup_still_updates_witness :
  let self := keeper_cleaner in
  let u := Some "2024_07_01_run1" in
  let nt := mkDF Sample.keeper_columns
              [Sample.keeper_row "A" "p1_m1" 3; Sample.keeper_row "B" "p9_m9" 5] in
  let r := FbrefClean.clean_save_update_data Sample.clean_batch self
             "2024-07-01" u false (world_with_backup ["yes"; "no"; "yes"]) in
  r.1 = Ok (Some nt)
  /\ csv_files (r.2) !! backup_path self u = Some Sample.empty_table
  /\ csv_files (r.2) !! production_path self = Some nt
  /\ csv_files (r.2) !! batch_path self u = Some Sample.batch.
Proof.
  cbv zeta.
  apply (declined_backup_still_updates Sample.clean_batch keeper_cleaner
           "2024-07-01" (Some "2024_07_01_run1")
           (world_with_backup ["yes"; "no"; "yes"])
           (world_with_backup ["yes"; "no"; "yes"])
           Sample.batch Sample.empty_table
           (mkDF Sample.keeper_columns
              [Sample.keeper_row "A" "p1_m1" 3; Sample.keeper_row "B" "p9_m9" 5])
           "yes" "no" "yes" [] "keeper_match").
  - reflexivity.
  - reflexivity.
  - reflexivity.
  - vm_compute. discriminate.
  - reflexivity.
  - vm_compute. reflexivity.
  - reflexivity.
  - vm_compute. reflexivity.
Defined.

End CleanerRuns.
